(** * t-result: the Result pattern of [src/main.ts]

    A shallow embedding of the library's run-time behaviour.

    - JavaScript values are the inductive type [value].  Objects, arrays and
      native errors carry a reference ([ref]): two values of these kinds are
      the same JavaScript reference exactly when they are equal here, so
      [===] on them is Rocq equality and a copy differs in its [ref].
    - Library code runs in the monad [M]: it allocates references from a
      counter and may return, throw, or leave the modelled fragment.
    - Functions supplied by the caller ([mapFn], [fn], [errorNormalizer])
      are Rocq functions over the caller's own world [U]; they may throw and
      change [U], and cannot observe the library's allocation counter.
    - A promise is modelled by its eventual settlement; reactions run when
      the chain is built (time is abstracted away).  An object with a
      callable [then] of its own is a thenable: how a promise resolved with
      it settles is a parameter, and calling its [then] directly is a call
      into foreign code, outside the model. *)

From Stdlib Require Import String Ascii List ZArith Bool Lia.
Import ListNotations.
Local Open Scope string_scope.
Local Set Warnings "-register-all".

(** ** Values *)

(** How a promise ends: fulfilled with a value, rejected with a reason, or
    never settled. *)
Inductive settlement (A : Type) : Type :=
| Fulfilled (v : A)
| Rejected (reason : A)
| Pending.

Arguments Fulfilled {A} v.
Arguments Rejected {A} reason.
Arguments Pending {A}.

(** [closure] lists the function values that can sit in an object: the
    module-level functions of [main.ts] used as methods, the four functions
    [err] creates around its [error] parameter, and functions defined
    outside the library ([Fn_foreign], opaque). *)
Inductive value : Type :=
| VUndefined
| VNull
| VBool (b : bool)
| VNumber (n : Z)
| VString (s : string)
| VArray (ref : nat) (items : list value)
| VObject (ref : nat) (props : list (string * value))
| VError (ref : nat) (message : string) (cause : option value)
| VPromise (p : settlement value)
| VFunction (f : closure)
with closure : Type :=
| Fn_okUnwrapOr
| Fn_okMap
| Fn_errMap
| Fn_mapOkAndErr
| Fn_returnResult
| Fn_okOnOk
| Fn_errOnErr
| Fn_err_unwrapOrNull
| Fn_err_unwrapOr
| Fn_err_unwrap (error : value)
| Fn_err_errorResult (error : value)
| Fn_foreign (tag : nat).

(** [typeof v]. *)
Definition typeof (v : value) : string :=
  match v with
  | VUndefined => "undefined"
  | VNull => "object"
  | VBool _ => "boolean"
  | VNumber _ => "number"
  | VString _ => "string"
  | VArray _ _ | VObject _ _ | VError _ _ _ | VPromise _ => "object"
  | VFunction _ => "function"
  end.

(** [v instanceof Error]. *)
Definition instanceofError (v : value) : bool :=
  match v with
  | VError _ _ _ => true
  | _ => false
  end.

(** JavaScript truthiness (numbers are integers here, so there is no NaN). *)
Definition truthy (v : value) : bool :=
  match v with
  | VUndefined | VNull => false
  | VBool b => b
  | VNumber n => negb (n =? 0)%Z
  | VString s => negb (s =? "")
  | _ => true
  end.

(** The members of a value, in insertion order (a key occurs at most once in
    an object literal; lookup takes the first binding).  A native error has
    its [message], and a [cause] when one was given.  Members inherited from
    the built-in prototypes are left out: the library asks for none of them. *)
Definition members (v : value) : list (string * value) :=
  match v with
  | VObject _ props => props
  | VError _ message cause =>
      ("message", VString message) ::
      match cause with
      | Some c => [("cause", c)]
      | None => []
      end
  | _ => []
  end.

Fixpoint lookup (key : string) (props : list (string * value)) : option value :=
  match props with
  | [] => None
  | (k, v) :: rest => if k =? key then Some v else lookup key rest
  end.

(** [key in v]. *)
Definition has_property (v : value) (key : string) : bool :=
  match lookup key (members v) with
  | Some _ => true
  | None => false
  end.

(** [v.key]: [undefined] when the member is missing.  The library reads
    members only of receivers of member calls and of values it has checked
    to be objects, so the TypeError of reading through [undefined] or
    [null] is not modelled. *)
Definition get (v : value) (key : string) : value :=
  match lookup key (members v) with
  | Some x => x
  | None => VUndefined
  end.

(** The text of a string value (used where [typeof v === 'string'] holds). *)
Definition text_of (v : value) : string :=
  match v with
  | VString s => s
  | _ => ""
  end.

(** [a ?? b] on an optional text. *)
Definition nullish (a : option string) (b : string) : string :=
  match a with
  | Some s => s
  | None => b
  end.

(** Modelled from the spec: [isObject] of [@ls-stack/utils/assertions], the
    external "is this a plain object" predicate [unknownToError] consumes. *)
Definition isObject (v : value) : bool :=
  match v with
  | VObject _ _ => true
  | _ => false
  end.

(** A thenable, as promise resolution sees it: a value with a member
    [then] that is a function. *)
Definition thenable (v : value) : bool :=
  has_property v "then" && (typeof (get v "then") =? "function").

(** Modelled from the spec: [isPromise] of [@ls-stack/utils/assertions], the
    external "is this thenable" predicate.  It holds of a promise and of
    every object with a callable [then]; the spec does not say whether a
    [then] that is not callable counts, so it is taken to hold of every
    value with a [then] member: what is proved of the values it rejects
    then holds under either reading. *)
Definition isPromise (v : value) : bool :=
  match v with
  | VPromise _ => true
  | _ => has_property v "then"
  end.

(** [ResultValidErrors]: a native error, a record, an array, or [true]. *)
Definition ResultValidErrors (e : value) : bool :=
  match e with
  | VError _ _ _ | VObject _ _ | VArray _ _ | VBool true => true
  | _ => false
  end.

(** ** The monad of library code *)

(** How a run ends.  [Unmodelled]: the run left the fragment modelled here
    (a member call on something that is not a library function, or with an
    argument of the wrong kind); nothing catches it. *)
Inductive outcome (A : Type) : Type :=
| Return (a : A)
| Throw (e : value)
| Unmodelled.

Arguments Return {A} a.
Arguments Throw {A} e.
Arguments Unmodelled {A}.

(** What the library depends on from outside, taken as parameters: the
    collaborator [safeJsonStringify] of [@ls-stack/utils/safeJson] ([None]:
    it gave [null] or [undefined]), and for a thenable object of the
    caller, how a promise resolved with it ends up ([adopt]: the engine
    calls its [then], which is the caller's code). *)
Class Externals : Type :=
  { safeJsonStringify : value -> option string;
    adopt : value -> settlement value }.

(** Stand-ins for the parameters, to run the model on concrete inputs: a
    stringifier that answers the same [text] for every value, [None] when
    it fails, and thenables that never call back. *)
Definition stringify_gives (text : option string) : Externals :=
  {| safeJsonStringify := fun _ => text;
     adopt := fun _ => Pending |}.

(** The double quote, and the JSON texts of [{ message: }] with an empty
    message and of [[ string ]], as [JSON.stringify] prints them. *)
Definition dquote : string := String (ascii_of_nat 34) EmptyString.

Definition json_empty_message : string :=
  "{" ++ dquote ++ "message" ++ dquote ++ ":" ++ dquote ++ dquote ++ "}".

Definition json_string_array : string :=
  "[" ++ dquote ++ "string" ++ dquote ++ "]".

Section Library.

(** The caller's world. *)
Context {U : Type} {ext : Externals}.

Record state : Type := mkState { next_ref : nat; world : U }.

Definition M (A : Type) : Type := state -> outcome A * state.

Definition ret {A} (a : A) : M A := fun st => (Return a, st).

Definition bind {A B} (m : M A) (k : A -> M B) : M B :=
  fun st =>
    match m st with
    | (Return a, st') => k a st'
    | (Throw e, st') => (Throw e, st')
    | (Unmodelled, st') => (Unmodelled, st')
    end.

Definition throw {A} (e : value) : M A := fun st => (Throw e, st).

Definition unmodelled {A} : M A := fun st => (Unmodelled, st).

(** [try { body } catch (error) { handler }]. *)
Definition try_catch {A} (body : M A) (handler : value -> M A) : M A :=
  fun st =>
    match body st with
    | (Throw e, st') => handler e st'
    | r => r
    end.

Notation "x <- m ;; k" := (bind m (fun x => k))
  (at level 100, m at next level, right associativity).

(** A fresh reference. *)
Definition fresh : M nat :=
  fun st => (Return (next_ref st), mkState (S (next_ref st)) (world st)).

(** A function of the caller, and a call to it from library code. *)
Definition callback : Type := value -> U -> outcome value * U.

Definition thunk : Type := U -> outcome value * U.

Definition run (f : thunk) : M value :=
  fun st => let (o, u) := f (world st) in (o, mkState (next_ref st) u).

Definition call (f : callback) (x : value) : M value := run (f x).

(** An object literal, and [new Error(message)] /
    [new Error(message, { cause })]. *)
Definition new_object (props : list (string * value)) : M value :=
  r <- fresh ;; ret (VObject r props).

Definition new_Error (message : string) (cause : option value) : M value :=
  r <- fresh ;; ret (VError r message cause).

(** ** [unknownToError] (main.ts 418-437) *)

Definition unknownToError (error : value) : M value :=
  if instanceofError error then ret error
  else if typeof error =? "string" then new_Error (text_of error) None
  else if isObject error then
    new_Error
      (if has_property error "message" && truthy (get error "message")
          && (typeof (get error "message") =? "string")
       then text_of (get error "message")
       else nullish (safeJsonStringify error) "unknown")
      (Some error)
  else new_Error (nullish (safeJsonStringify error) "unknown") (Some error).

(** ** The constructors (main.ts 169-233) *)

(** [ok()] without an argument is [ok(undefined)]: the parameter defaults to
    [undefined]. *)

Definition ok (val : value) : M value :=
  let methods :=
    [ ("unwrapOrNull", VFunction Fn_okUnwrapOr);
      ("unwrapOr", VFunction Fn_okUnwrapOr);
      ("unwrap", VFunction Fn_okUnwrapOr);
      ("mapOk", VFunction Fn_okMap);
      ("mapErr", VFunction Fn_returnResult);
      ("mapOkAndErr", VFunction Fn_mapOkAndErr);
      ("ifOk", VFunction Fn_okOnOk);
      ("ifErr", VFunction Fn_returnResult);
      ("onOk", VFunction Fn_okOnOk);
      ("onErr", VFunction Fn_returnResult) ] in
  new_object
    ([ ("ok", VBool true); ("error", VBool false); ("value", val) ] ++ methods).

Definition err (error : value) : M value :=
  let methods :=
    [ ("unwrapOrNull", VFunction Fn_err_unwrapOrNull);
      ("unwrapOr", VFunction Fn_err_unwrapOr);
      ("unwrap", VFunction (Fn_err_unwrap error));
      ("mapOk", VFunction Fn_returnResult);
      ("mapErr", VFunction Fn_errMap);
      ("mapOkAndErr", VFunction Fn_mapOkAndErr);
      ("ifOk", VFunction Fn_returnResult);
      ("onOk", VFunction Fn_returnResult);
      ("ifErr", VFunction Fn_errOnErr);
      ("onErr", VFunction Fn_errOnErr) ] in
  new_object
    ([ ("ok", VBool false); ("error", error);
       ("errorResult", VFunction (Fn_err_errorResult error)) ] ++ methods).

(** ** The shared method implementations (main.ts 103-164) *)

(** Something library code can call with one argument. *)
Definition callable : Type := value -> M value.

Definition okUnwrapOr (this : value) : M value :=
  ret (get this "value").

Definition okMap (this : value) (mapFn : callable) : M value :=
  if truthy (get this "ok") then v <- mapFn (get this "value") ;; ok v
  else ret this.

Definition errMap (this : value) (mapFn : callable) : M value :=
  if truthy (get this "ok") then ret this
  else e <- mapFn (get this "error") ;; err e.

Definition mapOkAndErr (this : value) (mapFn mapErrFn : callable) : M value :=
  if truthy (get this "ok") then v <- mapFn (get this "value") ;; ok v
  else e <- mapErrFn (get this "error") ;; err e.

Definition returnResult (this : value) : M value :=
  ret this.

Definition okOnOk (this : value) (fn : callable) : M value :=
  if truthy (get this "ok") then _ <- fn (get this "value") ;; ret this
  else ret this.

Definition errOnErr (this : value) (fn : callable) : M value :=
  if negb (truthy (get this "ok")) then _ <- fn (get this "error") ;; ret this
  else ret this.

(** The functions [err] creates around its parameter [error]
    (main.ts 207-215, 228-230). *)
Definition err_unwrapOrNull : M value :=
  ret VNull.

Definition err_unwrapOr (defaultValue : value) : M value :=
  ret defaultValue.

Definition err_unwrap (error : value) : M value :=
  if instanceofError error then throw error
  else e <- unknownToError error ;; throw e.

Definition err_errorResult (error : value) : M value :=
  err error.

(** ** Member calls *)

(** The argument of a member call: none, a plain value, a function of the
    caller, or the [{ ok, err }] pair of functions. *)
Inductive arg : Type :=
| NoArg
| ArgValue (v : value)
| ArgFn (fn : callback)
| ArgFns (okFn errFn : callback).

Definition arg_fn (a : arg) : callable :=
  match a with
  | ArgFn fn => call fn
  | _ => fun _ => unmodelled
  end.

(** [f.call(this, a)] for a function value [f]. *)
Definition apply_closure (f : closure) (this : value) (a : arg) : M value :=
  match f with
  | Fn_okUnwrapOr => okUnwrapOr this
  | Fn_okMap => okMap this (arg_fn a)
  | Fn_errMap => errMap this (arg_fn a)
  | Fn_mapOkAndErr =>
      match a with
      | ArgFns okFn errFn => mapOkAndErr this (call okFn) (call errFn)
      | _ => unmodelled
      end
  | Fn_returnResult => returnResult this
  | Fn_okOnOk => okOnOk this (arg_fn a)
  | Fn_errOnErr => errOnErr this (arg_fn a)
  | Fn_err_unwrapOrNull => err_unwrapOrNull
  | Fn_err_unwrapOr =>
      match a with
      | NoArg => err_unwrapOr VUndefined
      | ArgValue defaultValue => err_unwrapOr defaultValue
      | _ => unmodelled
      end
  | Fn_err_unwrap error => err_unwrap error
  | Fn_err_errorResult error => err_errorResult error
  | Fn_foreign _ => unmodelled
  end.

(** [receiver.name(a)]. *)
Definition invoke (receiver : value) (name : string) (a : arg) : M value :=
  match get receiver name with
  | VFunction f => apply_closure f receiver a
  | _ => unmodelled
  end.

(** ** Promises *)

(** What a promise resolved with [v] settles to: it follows [v] when [v] is
    itself a promise, ends as [adopt v] says when [v] is another thenable,
    and is fulfilled with [v] otherwise. *)
Definition resolve (v : value) : settlement value :=
  match v with
  | VPromise p => p
  | _ => if thenable v then adopt v else Fulfilled v
  end.

(** The promise of an [async] function whose remaining body is [body]: it
    is resolved with what the body returns and rejected with what it
    throws. *)
Definition async (body : M value) : M value :=
  fun st =>
    match body st with
    | (Return v, st') => (Return (VPromise (resolve v)), st')
    | (Throw e, st') => (Return (VPromise (Rejected e)), st')
    | (Unmodelled, st') => (Unmodelled, st')
    end.

(** [const x = await p; rest] in an [async] function, outside any [try]:
    [rest] runs when [p] is fulfilled; a rejection of [p] rejects the
    function's promise, and a promise that never settles leaves it pending. *)
Definition await (p : value) (rest : value -> M value) : M value :=
  match resolve p with
  | Fulfilled x => rest x
  | Rejected e => ret (VPromise (Rejected e))
  | Pending => ret (VPromise Pending)
  end.

(** [p.then(onFulfilled)] and [p.catch(onRejected)] on a promise.  On any
    other value the member, if there is one, is the caller's own function:
    the call is outside the model. *)
Definition promise_then (p : value) (onFulfilled : callable) : M value :=
  match p with
  | VPromise (Fulfilled x) => async (onFulfilled x)
  | VPromise other => ret (VPromise other)
  | _ => unmodelled
  end.

Definition promise_catch (p : value) (onRejected : callable) : M value :=
  match p with
  | VPromise (Rejected e) => async (onRejected e)
  | VPromise other => ret (VPromise other)
  | _ => unmodelled
  end.

(** ** Helpers over results (main.ts 240-310) *)

Definition unknownToResultError (error : value) : M value :=
  e <- unknownToError error ;; err e.

Definition asyncUnwrap (result : value) : M value :=
  await result (fun unwrapped =>
    async
      (if truthy (get unwrapped "ok") then ret (get unwrapped "value")
       else if instanceofError (get unwrapped "error")
            then throw (get unwrapped "error")
            else e <- unknownToError (get unwrapped "error") ;; throw e)).

(** The three functions of the object [asyncMap(resultPromise)] returns. *)
Record AsyncMap : Type := mkAsyncMap
  { map_err : callback -> M value;
    map_ok : callback -> M value;
    map_okAndErr : callback -> callback -> M value }.

Definition asyncMap (resultPromise : value) : AsyncMap :=
  {| map_err := fun mapFn =>
       await resultPromise (fun result =>
         async
           (if truthy (get result "ok") then ok (get result "value")
            else e <- call mapFn (get result "error") ;; err e));
     map_ok := fun mapFn =>
       await resultPromise (fun result =>
         async
           (if truthy (get result "ok")
            then v <- call mapFn (get result "value") ;; ok v
            else err (get result "error")));
     map_okAndErr := fun mapFn mapErrFn =>
       await resultPromise (fun result =>
         async
           (if truthy (get result "ok")
            then v <- call mapFn (get result "value") ;; ok v
            else e <- call mapErrFn (get result "error") ;; err e)) |}.

Definition errId (id : string) : M value :=
  o <- new_object [ ("id", VString id) ] ;; err o.

(** ** [resultify] (main.ts 354-395) *)

(** The first argument of [resultify], as [isFunction] of
    [@ls-stack/utils/assertions] classifies it: a function, or anything
    else, which by the argument's type is a promise. *)
Inductive fnOrPromise : Type :=
| AFunction (fn : thunk)
| NotAFunction (p : value).

Definition resultify (fn : fnOrPromise) (errorNormalizer : option callback)
  : M value :=
  let wrap_error : callable := fun error =>
    e <- match errorNormalizer with
         | Some normalizer => call normalizer error
         | None => unknownToError error
         end ;;
    err e in
  match fn with
  | NotAFunction p =>
      p' <- promise_then p (fun value => ok value) ;;
      promise_catch p' wrap_error
  | AFunction fn =>
      try_catch
        (result <- run fn ;;
         if isPromise result then
           p' <- promise_then result (fun value => ok value) ;;
           promise_catch p' wrap_error
         else ok result)
        wrap_error
  end.

(** ** [getOkErr] (main.ts 469-517) *)

Record TypedResult : Type := mkTypedResult
  { typed_ok : value -> M value;
    typed_err : value -> M value;
    typed__type : M value }.

Definition typedResult : TypedResult :=
  {| typed_ok := ok;
     typed_err := err;
     typed__type :=
       e <- new_Error "usage as value is not allowed" None ;; throw e |}.

Definition getOkErr : TypedResult := typedResult.

(** ** The namespace object [Result] (main.ts 315-331) *)

Record ResultNamespace : Type := mkResultNamespace
  { Result_ok : value -> M value;
    Result_err : value -> M value;
    Result_unknownToError : value -> M value;
    Result_asyncUnwrap : value -> M value;
    Result_asyncMap : value -> AsyncMap;
    Result_getOkErr : TypedResult;
    Result_errId : string -> M value }.

Definition Result : ResultNamespace :=
  {| Result_ok := ok;
     Result_err := err;
     Result_unknownToError := unknownToResultError;
     Result_asyncUnwrap := asyncUnwrap;
     Result_asyncMap := asyncMap;
     Result_getOkErr := getOkErr;
     Result_errId := errId |}.

(** ** [isResult] (main.ts 529-551) *)

Definition hasMethod (value : value) (method : string) : bool :=
  has_property value method && (typeof (get value method) =? "function").

Definition is_null (v : value) : bool :=
  match v with
  | VNull => true
  | _ => false
  end.

Definition isResult (value : value) : bool :=
  (typeof value =? "object") &&
  negb (is_null value) &&
  has_property value "ok" &&
  (typeof (get value "ok") =? "boolean") &&
  has_property value "error" &&
  hasMethod value "unwrapOrNull" &&
  hasMethod value "unwrapOr" &&
  hasMethod value "unwrap" &&
  hasMethod value "mapOk" &&
  hasMethod value "mapErr" &&
  hasMethod value "mapOkAndErr" &&
  hasMethod value "onOk" &&
  hasMethod value "onErr".

(** ** Spec-level definitions *)

(** Modelled from the spec: [safeFn(fn, errorNormalizer?)] (spec section
    4.4), which [main.ts] does not define.  It is [resultify] applied to the
    call of [fn] on the forwarded arguments, performed at each invocation. *)
Definition safeFn (fn : list value -> thunk) (errorNormalizer : option callback)
  : list value -> M value :=
  fun args => resultify (AFunction (fn args)) errorNormalizer.

(** A value built by [ok(v)], by [err(e)], and a Result: one or the other
    (spec section 3: a Result is created exclusively by [ok] and [err]). *)
Definition IsOk (r v : value) : Prop :=
  exists st, fst (ok v st) = Return r.

Definition IsErr (r e : value) : Prop :=
  exists st, fst (err e st) = Return r.

Definition IsResult (r : value) : Prop :=
  (exists v, IsOk r v) \/ (exists e, IsErr r e).

(** [isResult] as the spec words it (section 4.6): a non-null object, with
    a boolean [ok] field, an [error] field of any value, and a callable
    member for every name of the shared method set. *)
Definition non_null_object (v : value) : Prop :=
  typeof v = "object" /\ v <> VNull.

Definition boolean_field (v : value) (name : string) : Prop :=
  exists b, lookup name (members v) = Some (VBool b).

Definition present_field (v : value) (name : string) : Prop :=
  exists x, lookup name (members v) = Some x.

Definition callable_member (v : value) (name : string) : Prop :=
  exists f, lookup name (members v) = Some (VFunction f).

Definition shared_method_names : list string :=
  [ "unwrapOrNull"; "unwrapOr"; "unwrap"; "mapOk"; "mapErr"; "mapOkAndErr";
    "onOk"; "onErr" ].

Definition isResult_spec (v : value) : Prop :=
  non_null_object v /\
  boolean_field v "ok" /\
  present_field v "error" /\
  Forall (callable_member v) shared_method_names.

(** The identity function, and [x => g(f(x))]. *)
Definition identity : callback :=
  fun x u => (Return x, u).

Definition compose (g f : callback) : callback :=
  fun x u =>
    match f x u with
    | (Return y, u') => g y u'
    | (Throw e, u') => (Throw e, u')
    | (Unmodelled, u') => (Unmodelled, u')
    end.

(** Two Results are observably equal when they are on the same branch and
    carry the same value or error. *)
Definition observably_equal (r1 r2 : value) : Prop :=
  get r1 "ok" = get r2 "ok" /\
  get r1 "value" = get r2 "value" /\
  get r1 "error" = get r2 "error".

(** Two runs agree when they leave the caller's world the same and end the
    same way: with results related by [R], or throwing the same value. *)
Definition same_run (R : value -> value -> Prop)
  (x y : outcome value * state) : Prop :=
  world (snd x) = world (snd y) /\
  match fst x, fst y with
  | Return a, Return b => R a b
  | Throw e1, Throw e2 => e1 = e2
  | Unmodelled, Unmodelled => True
  | _, _ => False
  end.

(** [divide] of the repository's tests (tests/tsResult.test.ts 21-27), on
    integers; the runs below use it where the quotient is exact. *)
Definition divide (a b : Z) : M value :=
  if (b =? 0)%Z then
    e <- new_Error "Cannot divide by zero" None ;; Result_err Result e
  else Result_ok Result (VNumber (a / b)).

(** The members [isResult] reads. *)
Definition guarded_members : list string :=
  "ok" :: "error" :: shared_method_names.

(** The ways a call of the caller's function can end that [resultify]
    handles by itself: it throws, returns a promise, or returns a value
    that is not thenable.  (The [then] of any other thenable is the
    caller's code, and [resultify] returns what it and its [catch] give.) *)
Definition plain_or_promise (o : outcome value) : Prop :=
  match o with
  | Return r => isPromise r = false \/ exists p, r = VPromise p
  | Throw _ => True
  | Unmodelled => False
  end.

(** A promise of a Result that never rejects: pending, or fulfilled with a
    Result. *)
Definition promise_of_Result (v : value) : Prop :=
  exists s, v = VPromise s /\
    (s = Pending \/ exists r, s = Fulfilled r /\ IsResult r).

(** The state after one allocation. *)
Definition bump (st : state) : state :=
  mkState (S (next_ref st)) (world st).

(** The state after the caller's code moved its world to [u]. *)
Definition with_world (st : state) (u : U) : state :=
  mkState (next_ref st) u.

(** ** Properties *)

Lemma unknownToError_returns_Error (v : value) (st : state) :
  exists x st', unknownToError v st = (Return x, st') /\
    instanceofError x = true /\ world st' = world st.
Proof.
  unfold unknownToError.
  destruct v; cbn; do 2 eexists; repeat split; reflexivity.
Qed.

(** *** Results, by the constructor that made them *)

Lemma IsOk_inv (r v : value) :
  IsOk r v ->
  exists ref props, r = VObject ref props /\
    get r "ok" = VBool true /\ get r "value" = v /\
    get r "error" = VBool false /\
    get r "mapOk" = VFunction Fn_okMap.
Proof.
  intros [st H]. cbn in H. injection H as <-.
  do 2 eexists. repeat split; reflexivity.
Qed.

Lemma IsErr_inv (r e : value) :
  IsErr r e ->
  exists ref props, r = VObject ref props /\
    get r "ok" = VBool false /\ get r "error" = e /\
    get r "value" = VUndefined /\
    get r "mapOk" = VFunction Fn_returnResult.
Proof.
  intros [st H]. cbn in H. injection H as <-.
  do 2 eexists. repeat split; reflexivity.
Qed.

Lemma ok_returns (v : value) (st : state) :
  exists r, ok v st = (Return r, bump st) /\ IsOk r v.
Proof. eexists. split; [reflexivity | exists st; reflexivity]. Qed.

Lemma err_returns (e : value) (st : state) :
  exists r, err e st = (Return r, bump st) /\ IsErr r e.
Proof. eexists. split; [reflexivity | exists st; reflexivity]. Qed.

(** C1.  For every value [v], [ok(v)] builds a fresh object whose [ok] is
    [true], whose [error] is [false] and whose [value] is [v]; on it
    [unwrapOrNull()], [unwrap()] and [unwrapOr(d)], for any default [d],
    all return [v]. *)
Theorem ok_constructs_Ok (v d : value) (st : state) :
  exists r,
    ok v st = (Return r, bump st) /\
    get r "ok" = VBool true /\
    get r "error" = VBool false /\
    get r "value" = v /\
    forall st',
      invoke r "unwrapOrNull" NoArg st' = (Return v, st') /\
      invoke r "unwrap" NoArg st' = (Return v, st') /\
      invoke r "unwrapOr" (ArgValue d) st' = (Return v, st').
Proof.
  eexists. split; [reflexivity|]. repeat split; reflexivity.
Qed.

(** C2.  For every error payload [e] satisfying the error constraint,
    [err(e)] builds a fresh object whose [ok] is [false] and whose [error]
    is [e] itself; on it [unwrapOrNull()] returns [null], [unwrapOr(d)]
    returns [d], and [unwrap()] throws: [e] itself when it is a native
    error, and otherwise the native error [unknownToError(e)]. *)
Theorem err_constructs_Err (e d : value) (st : state) :
  ResultValidErrors e = true ->
  exists r,
    err e st = (Return r, bump st) /\
    get r "ok" = VBool false /\
    get r "error" = e /\
    forall st',
      invoke r "unwrapOrNull" NoArg st' = (Return VNull, st') /\
      invoke r "unwrapOr" (ArgValue d) st' = (Return d, st') /\
      (instanceofError e = true ->
       invoke r "unwrap" NoArg st' = (Throw e, st')) /\
      (instanceofError e = false ->
       exists x st'',
         unknownToError e st' = (Return x, st'') /\
         instanceofError x = true /\
         invoke r "unwrap" NoArg st' = (Throw x, st'')).
Proof.
  intros _. eexists. split; [reflexivity|]. repeat split; try reflexivity.
  - intros He. cbn. unfold err_unwrap. rewrite He. reflexivity.
  - intros He.
    destruct (unknownToError_returns_Error e st') as (x & st'' & Hx & Herr & _).
    exists x, st''. repeat split; trivial.
    cbn. unfold err_unwrap, bind. rewrite He, Hx. reflexivity.
Qed.

(** What [resultify] does with a function, by how the call ends. *)
Lemma resultify_returned (fn : thunk) (normalizer : option callback)
  (st : state) (r : value) (u : U) :
  fn (world st) = (Return r, u) -> isPromise r = false ->
  resultify (AFunction fn) normalizer st = ok r (with_world st u).
Proof.
  intros Hfn Hr.
  unfold resultify, try_catch, bind, run. rewrite Hfn, Hr. reflexivity.
Qed.

Lemma resultify_threw (fn : thunk) (st : state) (e : value) (u : U) :
  fn (world st) = (Throw e, u) ->
  resultify (AFunction fn) None st
  = (x <- unknownToError e ;; err x) (with_world st u).
Proof.
  intros Hfn.
  unfold resultify, try_catch, bind, run. rewrite Hfn. reflexivity.
Qed.

Lemma resultify_threw_normalized (fn : thunk) (normalizer : callback)
  (st : state) (e e' : value) (u u' : U) :
  fn (world st) = (Throw e, u) ->
  normalizer e u = (Return e', u') ->
  resultify (AFunction fn) (Some normalizer) st = err e' (with_world st u').
Proof.
  intros Hfn Hn.
  unfold resultify, try_catch, bind, run, call, run. rewrite Hfn.
  cbn. rewrite Hn. reflexivity.
Qed.

(** C3.  [resultify] on a function that does not return a promise (nor any
    other value [isPromise] accepts) calls it at once and returns a Result,
    not a promise: [ok(returnValue)] when the function returns; when it
    throws [e], [err(unknownToError(e))], whose error is [e] itself for a
    native error [e], or [err(errorNormalizer(e))] when a normalizer was
    supplied. *)
Theorem resultify_sync (fn : thunk) (st : state) :
  (forall r u normalizer,
      fn (world st) = (Return r, u) -> isPromise r = false ->
      exists res,
        resultify (AFunction fn) normalizer st
        = (Return res, bump (with_world st u)) /\
        ok r (with_world st u) = (Return res, bump (with_world st u)) /\
        IsOk res r) /\
  (forall e u,
      fn (world st) = (Throw e, u) ->
      (exists x st1 res,
          unknownToError e (with_world st u) = (Return x, st1) /\
          instanceofError x = true /\
          resultify (AFunction fn) None st = (Return res, bump st1) /\
          err x st1 = (Return res, bump st1) /\
          IsErr res x) /\
      (instanceofError e = true ->
       exists res,
         resultify (AFunction fn) None st
         = (Return res, bump (with_world st u)) /\
         IsErr res e /\
         get res "error" = e) /\
      (forall (normalizer : callback) e' u',
          normalizer e u = (Return e', u') ->
          exists res,
            resultify (AFunction fn) (Some normalizer) st
            = (Return res, bump (with_world st u')) /\
            err e' (with_world st u') = (Return res, bump (with_world st u')) /\
            IsErr res e')).
Proof.
  split.
  - intros r u normalizer Hfn Hr.
    destruct (ok_returns r (with_world st u)) as (res & Hres & Hok).
    exists res. rewrite (resultify_returned fn normalizer st r u Hfn Hr).
    auto.
  - intros e u Hfn. split; [| split].
    + destruct (unknownToError_returns_Error e (with_world st u))
        as (x & st1 & Hx & Herr & _).
      destruct (err_returns x st1) as (res & Hres & HisErr).
      exists x, st1, res. rewrite (resultify_threw fn st e u Hfn).
      unfold bind. rewrite Hx. auto.
    + intros He.
      destruct (err_returns e (with_world st u)) as (res & Hres & HisErr).
      exists res. rewrite (resultify_threw fn st e u Hfn).
      unfold bind, unknownToError. rewrite He. cbn [ret].
      split; [exact Hres|]. split; [exact HisErr|].
      destruct (IsErr_inv res e HisErr) as (_ & _ & _ & _ & H & _). exact H.
    + intros normalizer e' u' Hn.
      destruct (err_returns e' (with_world st u')) as (res & Hres & HisErr).
      exists res.
      rewrite (resultify_threw_normalized fn normalizer st e e' u u' Hfn Hn).
      auto.
Qed.

Lemma get_defined_has_property (v : value) (key : string) :
  get v key <> VUndefined -> has_property v key = true.
Proof.
  unfold get, has_property. destruct (lookup key (members v)); congruence.
Qed.

Lemma eqb_empty_false (s : string) : s <> "" -> (s =? "") = false.
Proof. intros H. apply String.eqb_neq. exact H. Qed.

(** C4 (as amended).  For every plain object [o] that is not a native
    error, [unknownToError(o)] returns a new native error whose [cause] is
    [o] itself, and whose message is the [message] member of [o] when that
    member is a non-empty string, and otherwise the text
    [safeJsonStringify(o)], or [unknown] when that gives nothing. *)
Theorem unknownToError_object (o : value) (st : state) :
  isObject o = true ->
  instanceofError o = false ->
  exists message,
    unknownToError o st
    = (Return (VError (next_ref st) message (Some o)), bump st) /\
    (forall s, get o "message" = VString s -> s <> "" -> message = s) /\
    ((forall s, get o "message" = VString s -> s = "") ->
     match safeJsonStringify o with
     | Some text => message = text
     | None => message = "unknown"
     end).
Proof.
  intros Hobj Herr.
  destruct o; try discriminate Hobj.
  unfold unknownToError. rewrite Herr, Hobj. cbn [typeof String.eqb Ascii.eqb Bool.eqb].
  eexists. split; [reflexivity|]. split.
  - intros s Hget Hs. rewrite Hget.
    rewrite get_defined_has_property by (rewrite Hget; discriminate).
    cbn. rewrite (eqb_empty_false s Hs). reflexivity.
  - intros Hempty.
    destruct (get (VObject ref props) "message") eqn:Hget;
      rewrite ?andb_false_r;
      try (destruct (safeJsonStringify (VObject ref props)); reflexivity).
    rewrite (Hempty s eq_refl). cbn. rewrite andb_false_r.
    destruct (safeJsonStringify (VObject ref props)); reflexivity.
Qed.

(** *** The type guard *)

Lemma typeof_boolean (x : value) :
  (typeof x =? "boolean") = true <-> exists b, x = VBool b.
Proof.
  destruct x; cbn; split; intros H; try discriminate H; eauto;
    destruct H as [b' H]; discriminate H.
Qed.

Lemma typeof_function (x : value) :
  (typeof x =? "function") = true <-> exists f, x = VFunction f.
Proof.
  destruct x; cbn; split; intros H; try discriminate H; eauto;
    destruct H as [f' H]; discriminate H.
Qed.

Lemma non_null_object_iff (v : value) :
  (typeof v =? "object") && negb (is_null v) = true <-> non_null_object v.
Proof.
  unfold non_null_object.
  destruct v; cbn; split; intros H; try discriminate H;
    try (split; [reflexivity | discriminate]);
    try reflexivity; destruct H as [H1 H2]; try discriminate H1.
  now elim H2.
Qed.

Lemma has_property_iff (v : value) (name : string) :
  has_property v name = true <-> present_field v name.
Proof.
  unfold has_property, present_field.
  destruct (lookup name (members v)); split; intros H;
    eauto; try discriminate H.
  destruct H as [x H]. discriminate H.
Qed.

Lemma boolean_field_iff (v : value) (name : string) :
  has_property v name && (typeof (get v name) =? "boolean") = true
  <-> boolean_field v name.
Proof.
  unfold has_property, get, boolean_field.
  destruct (lookup name (members v)) as [x|]; cbn.
  - rewrite typeof_boolean. split; intros [b H]; exists b; congruence.
  - split; [discriminate | intros [b H]; discriminate H].
Qed.

Lemma hasMethod_iff (v : value) (name : string) :
  hasMethod v name = true <-> callable_member v name.
Proof.
  unfold hasMethod, has_property, get, callable_member.
  destruct (lookup name (members v)) as [x|]; cbn.
  - rewrite typeof_function. split; intros [f H]; exists f; congruence.
  - split; [discriminate | intros [f H]; discriminate H].
Qed.

(** C7.  [isResult(value)] is [true] exactly when [value] is a non-null
    object with a boolean [ok] field, an [error] field, and callable
    members [unwrapOrNull], [unwrapOr], [unwrap], [mapOk], [mapErr],
    [mapOkAndErr], [onOk] and [onErr]; it holds of every [ok(v)], such as
    [ok(1)], and of every [err(e)], such as [err(new Error('x'))], and fails
    on [{ ok: true, value: 1 }], on [null] and on [1]. *)
Theorem isResult_structural :
  (forall v, isResult v = true <-> isResult_spec v) /\
  (forall v st, exists r, ok v st = (Return r, bump st) /\ isResult r = true) /\
  (forall e st, exists r, err e st = (Return r, bump st) /\ isResult r = true) /\
  (forall ref,
      isResult (VObject ref [ ("ok", VBool true); ("value", VNumber 1) ])
      = false) /\
  isResult VNull = false /\
  isResult (VNumber 1) = false.
Proof.
  split; [| repeat split; intros; try (eexists; split); reflexivity].
  intros v. unfold isResult, isResult_spec, shared_method_names.
  rewrite !andb_true_iff.
  split.
  - intros H. repeat match goal with H : _ /\ _ |- _ => destruct H end.
    repeat match goal with
           | H : hasMethod _ _ = true |- _ => apply hasMethod_iff in H
           end.
    split; [apply non_null_object_iff, andb_true_iff; split; assumption|].
    split; [apply boolean_field_iff, andb_true_iff; split; assumption|].
    split; [apply has_property_iff; assumption|].
    repeat constructor; assumption.
  - intros (Hobj & Hok & Herr & Hm).
    repeat match goal with
           | H : Forall _ (_ :: _) |- _ => inversion_clear H
           end.
    apply non_null_object_iff, andb_true_iff in Hobj.
    apply boolean_field_iff, andb_true_iff in Hok.
    apply has_property_iff in Herr.
    repeat match goal with
           | H : callable_member _ _ |- _ => apply hasMethod_iff in H
           end.
    destruct Hobj, Hok. repeat split; assumption.
Qed.

Lemma resolve_not_thenable (v : value) :
  isPromise v = false -> resolve v = Fulfilled v.
Proof.
  unfold resolve, isPromise, thenable. destruct v; intros H;
    try discriminate H; rewrite ?H; reflexivity.
Qed.

(** C8.  For a promise fulfilled with a Result [r]: when [r] is an Ok of
    [v], the promise [asyncUnwrap] returns is resolved with [v] (fulfilled
    with [v], unless [v] is itself a promise or another thenable, which it
    then follows); when
    [r] is an Err of [e], it is rejected with [e] itself if [e] is a native
    error, and otherwise with [unknownToError(e)]. *)
Theorem asyncUnwrap_settles (r : value) (st : state) :
  (forall v, IsOk r v ->
     asyncUnwrap (VPromise (Fulfilled r)) st
     = (Return (VPromise (resolve v)), st)) /\
  (forall v, IsOk r v -> isPromise v = false ->
     asyncUnwrap (VPromise (Fulfilled r)) st
     = (Return (VPromise (Fulfilled v)), st)) /\
  (forall e, IsErr r e -> instanceofError e = true ->
     asyncUnwrap (VPromise (Fulfilled r)) st
     = (Return (VPromise (Rejected e)), st)) /\
  (forall e, IsErr r e -> instanceofError e = false ->
     exists x st',
       unknownToError e st = (Return x, st') /\
       instanceofError x = true /\
       asyncUnwrap (VPromise (Fulfilled r)) st
       = (Return (VPromise (Rejected x)), st')).
Proof.
  repeat split.
  - intros v Hr. destruct (IsOk_inv r v Hr) as (ref & props & _ & Hok & Hv & _).
    unfold asyncUnwrap, await, async. cbn. rewrite Hok, Hv. reflexivity.
  - intros v Hr Hv'. destruct (IsOk_inv r v Hr) as (ref & props & _ & Hok & Hv & _).
    unfold asyncUnwrap, await, async. cbn. rewrite Hok, Hv. cbn.
    rewrite (resolve_not_thenable v Hv'). reflexivity.
  - intros e Hr He.
    destruct (IsErr_inv r e Hr) as (ref & props & _ & Hok & Herr & _).
    unfold asyncUnwrap, await, async. cbn. rewrite Hok, Herr, He. reflexivity.
  - intros e Hr He.
    destruct (IsErr_inv r e Hr) as (ref & props & _ & Hok & Herr & _).
    destruct (unknownToError_returns_Error e st) as (x & st' & Hx & HxE & _).
    exists x, st'. repeat split; trivial.
    unfold asyncUnwrap, await, async. cbn. rewrite Hok, Herr, He. cbn.
    unfold bind. rewrite Hx. reflexivity.
Qed.

Lemma mapOk_on_Ok (r v : value) (f : callback) (st : state) :
  IsOk r v ->
  invoke r "mapOk" (ArgFn f) st = (y <- call f v ;; ok y) st.
Proof. intros [st0 H]. cbn in H. injection H as <-. reflexivity. Qed.

Lemma mapOk_on_Err (r e : value) (a : arg) (st : state) :
  IsErr r e -> invoke r "mapOk" a st = (Return r, st).
Proof. intros [st0 H]. cbn in H. injection H as <-. reflexivity. Qed.

Lemma IsOk_observably_equal (r1 r2 v : value) :
  IsOk r1 v -> IsOk r2 v -> observably_equal r1 r2.
Proof.
  intros [s1 H1] [s2 H2]. cbn in H1, H2.
  injection H1 as <-. injection H2 as <-. repeat split.
Qed.

(** C9.  For every Result [r]: [r.mapOk(id)] is observably equal to [r],
    and for all functions [f] and [g], [r.mapOk(f).mapOk(g)] is observably
    equal to [r.mapOk(x => g(f(x)))]; when [r] is an Err, each of these
    expressions returns [r] itself. *)
Theorem mapOk_identity_and_composition (r : value) (f g : callback)
  (st : state) :
  IsResult r ->
  same_run observably_equal
    (invoke r "mapOk" (ArgFn identity) st) (Return r, st) /\
  same_run observably_equal
    ((r' <- invoke r "mapOk" (ArgFn f) ;; invoke r' "mapOk" (ArgFn g)) st)
    (invoke r "mapOk" (ArgFn (compose g f)) st) /\
  (forall e, IsErr r e ->
     invoke r "mapOk" (ArgFn identity) st = (Return r, st) /\
     (r' <- invoke r "mapOk" (ArgFn f) ;; invoke r' "mapOk" (ArgFn g)) st
     = (Return r, st) /\
     invoke r "mapOk" (ArgFn (compose g f)) st = (Return r, st)).
Proof.
  assert (Herr_case : forall e, IsErr r e ->
     invoke r "mapOk" (ArgFn identity) st = (Return r, st) /\
     (r' <- invoke r "mapOk" (ArgFn f) ;; invoke r' "mapOk" (ArgFn g)) st
     = (Return r, st) /\
     invoke r "mapOk" (ArgFn (compose g f)) st = (Return r, st)).
  { intros e He. unfold bind.
    repeat (first [ rewrite (mapOk_on_Err r e _ st He)
                  | progress cbv beta iota ]).
    repeat split. }
  intros [[v Hr] | [e Hr]].
  - split; [| split]; [| | exact Herr_case]; clear Herr_case.
    + rewrite (mapOk_on_Ok r v identity st Hr).
      destruct (ok_returns v st) as (r1 & Hr1 & Hok1).
      unfold bind, call, run, identity. cbn [world].
      replace (mkState (next_ref st) (world st)) with st by (destruct st; reflexivity).
      rewrite Hr1. split; [reflexivity|].
      cbn [fst]. exact (IsOk_observably_equal r1 r v Hok1 Hr).
    + unfold bind at 1.
      rewrite (mapOk_on_Ok r v f st Hr), (mapOk_on_Ok r v (compose g f) st Hr).
      unfold bind, call, run, compose.
      destruct (f v (world st)) as [[y | e | ] u]; [| repeat split ..].
      destruct (ok_returns y (mkState (next_ref st) u)) as (r1 & Hr1 & Hok1).
      rewrite Hr1. rewrite (mapOk_on_Ok r1 y g _ Hok1).
      unfold bind, call, run. cbn [world bump next_ref].
      destruct (g y u) as [[z | e | ] u']; [| repeat split ..].
      destruct (ok_returns z (mkState (S (next_ref st)) u')) as (r2 & Hr2 & Hok2).
      destruct (ok_returns z (mkState (next_ref st) u')) as (r3 & Hr3 & Hok3).
      rewrite Hr2, Hr3. split; [reflexivity|].
      cbn [fst]. exact (IsOk_observably_equal r2 r3 z Hok2 Hok3).
  - destruct (Herr_case e Hr) as (H1 & H2 & H3).
    rewrite H1, H2, H3. repeat split; trivial.
Qed.

(** C5.  [main.ts] gives Results no [mapToValue]: the objects [ok] and
    [err] build have no such member, so on every Result [r.mapToValue] is
    [undefined], and the call [r.mapToValue({ ok, err })] that the
    repository's tests make is a call of something that is not a function
    (it ends outside the model, where JavaScript throws a TypeError)
    instead of returning [okFn(value)] or [errFn(error)]. *)
Theorem mapToValue_is_missing (okFn errFn : callback) :
  (forall v st,
      exists r,
        ok v st = (Return r, bump st) /\
        has_property r "mapToValue" = false /\
        get r "mapToValue" = VUndefined /\
        forall st',
          invoke r "mapToValue" (ArgFns okFn errFn) st' = (Unmodelled, st')) /\
  (forall e st,
      exists r,
        err e st = (Return r, bump st) /\
        has_property r "mapToValue" = false /\
        get r "mapToValue" = VUndefined /\
        forall st',
          invoke r "mapToValue" (ArgFns okFn errFn) st' = (Unmodelled, st')).
Proof.
  split; intros x st; eexists; (split; [reflexivity|]); repeat split.
Qed.

(** C6.  [safeFn(fn, errorNormalizer?)] takes the arguments of [fn],
    forwards them to [fn], and returns a Result: [ok] of what [fn] returns
    when that is not a promise (nor any other value [isPromise] accepts),
    [err] of the thrown error ([unknownToError] of it, or the normalizer's
    output), and, when [fn] returns a promise, a promise of such a Result. *)
Theorem safeFn_wraps (fn : list value -> thunk) (args : list value)
  (st : state) :
  (forall r u normalizer,
      fn args (world st) = (Return r, u) -> isPromise r = false ->
      exists res,
        safeFn fn normalizer args st = (Return res, bump (with_world st u)) /\
        IsOk res r) /\
  (forall e u,
      fn args (world st) = (Throw e, u) ->
      (exists x st1 res,
          unknownToError e (with_world st u) = (Return x, st1) /\
          instanceofError x = true /\
          safeFn fn None args st = (Return res, bump st1) /\
          IsErr res x) /\
      (forall (normalizer : callback) e' u',
          normalizer e u = (Return e', u') ->
          exists res,
            safeFn fn (Some normalizer) args st
            = (Return res, bump (with_world st u')) /\
            IsErr res e')) /\
  (forall p u normalizer,
      fn args (world st) = (Return (VPromise p), u) ->
      match p with
      | Fulfilled x =>
          exists res,
            safeFn fn normalizer args st
            = (Return (VPromise (Fulfilled res)), bump (with_world st u)) /\
            IsOk res x
      | Rejected e =>
          match normalizer with
          | None =>
              exists x st1 res,
                unknownToError e (with_world st u) = (Return x, st1) /\
                safeFn fn None args st
                = (Return (VPromise (Fulfilled res)), bump st1) /\
                IsErr res x
          | Some n =>
              forall e' u',
                n e u = (Return e', u') ->
                exists res,
                  safeFn fn (Some n) args st
                  = (Return (VPromise (Fulfilled res)),
                     bump (with_world st u')) /\
                  IsErr res e'
          end
      | Pending =>
          safeFn fn normalizer args st
          = (Return (VPromise Pending), with_world st u)
      end).
Proof.
  unfold safeFn. split; [| split].
  - intros r u normalizer Hfn Hr.
    destruct (ok_returns r (with_world st u)) as (res & Hres & Hok).
    exists res. rewrite (resultify_returned _ normalizer st r u Hfn Hr). auto.
  - intros e u Hfn. split.
    + destruct (unknownToError_returns_Error e (with_world st u))
        as (x & st1 & Hx & Herr & _).
      destruct (err_returns x st1) as (res & Hres & HisErr).
      exists x, st1, res. rewrite (resultify_threw _ st e u Hfn).
      unfold bind. rewrite Hx. auto.
    + intros normalizer e' u' Hn.
      destruct (err_returns e' (with_world st u')) as (res & Hres & HisErr).
      exists res.
      rewrite (resultify_threw_normalized _ normalizer st e e' u u' Hfn Hn).
      auto.
  - intros p u normalizer Hfn.
    unfold resultify, try_catch, bind, run. rewrite Hfn.
    destruct p as [x | e | ]; cbn.
    + eexists. split; [reflexivity|]. exists (with_world st u). reflexivity.
    + destruct normalizer as [n | ].
      * intros e' u' Hn. unfold async, call, run. cbn. rewrite Hn.
        eexists. split; [reflexivity|]. exists (with_world st u'). reflexivity.
      * destruct (unknownToError_returns_Error e (with_world st u))
          as (x & st1 & Hx & _).
        unfold async. fold (with_world st u). rewrite Hx.
        exists x, st1. eexists. split; [reflexivity|].
        split; [reflexivity|]. exists st1. reflexivity.
    + reflexivity.
Qed.

(** C10 (as amended).  The namespace object [Result] holds [ok], [err],
    [asyncUnwrap], [asyncMap], [getOkErr] and [errId] unchanged; its
    [unknownToError] member is [unknownToResultError]: for every value [v]
    it returns [err(unknownToError(v))], an Err whose [error] is the native
    error the standalone [unknownToError(v)] returns. *)
Theorem Result_namespace (v : value) (st : state) :
  Result_ok Result = ok /\
  Result_err Result = err /\
  Result_asyncUnwrap Result = asyncUnwrap /\
  Result_asyncMap Result = asyncMap /\
  Result_getOkErr Result = getOkErr /\
  Result_errId Result = errId /\
  exists x st1 r,
    unknownToError v st = (Return x, st1) /\
    instanceofError x = true /\
    Result_unknownToError Result v st = (Return r, bump st1) /\
    err x st1 = (Return r, bump st1) /\
    get r "ok" = VBool false /\
    get r "error" = x.
Proof.
  repeat (split; [reflexivity|]).
  destruct (unknownToError_returns_Error v st) as (x & st1 & Hx & Herr & _).
  exists x, st1. eexists. split; [exact Hx|]. split; [exact Herr|].
  cbn [Result_unknownToError Result]. unfold unknownToResultError, bind.
  rewrite Hx. repeat split; reflexivity.
Qed.

(** *** Further properties of the code *)

Lemma typeof_string (x : value) :
  (typeof x =? "string") = true <-> exists s, x = VString s.
Proof.
  destruct x; cbn; split; intros H; try discriminate H; eauto;
    destruct H as [s' H]; discriminate H.
Qed.

(** X1.  [unknownToError] never throws and always returns a native error:
    its argument itself when that is a native error, a new error with the
    string as message for a string, and otherwise a new error whose cause
    is the argument. *)
Theorem unknownToError_total (v : value) (st : state) :
  (instanceofError v = true -> unknownToError v st = (Return v, st)) /\
  (forall s, v = VString s ->
     unknownToError v st = (Return (VError (next_ref st) s None), bump st)) /\
  (instanceofError v = false -> (forall s, v <> VString s) ->
     exists message,
       unknownToError v st
       = (Return (VError (next_ref st) message (Some v)), bump st)).
Proof.
  repeat split.
  - intros H. unfold unknownToError. rewrite H. reflexivity.
  - intros s ->. reflexivity.
  - intros Herr Hstr. unfold unknownToError. rewrite Herr.
    destruct (typeof v =? "string") eqn:Hty.
    + apply typeof_string in Hty. destruct Hty as [s Hs]. now elim (Hstr s).
    + destruct (isObject v); eexists; reflexivity.
Qed.

(** X2.  [err(e).errorResult()] is a new Err whose [error] is [e] itself:
    run right after [err(e)], and at any later state, [errorResult()]
    returns what [err(e)] builds there, an object other than the receiver,
    with [ok] false and [e] as its [error]. *)
Theorem errorResult_round_trip (e : value) (st : state) :
  exists r r',
    err e st = (Return r, bump st) /\
    (r0 <- err e ;; invoke r0 "errorResult" NoArg) st
    = (Return r', bump (bump st)) /\
    err e (bump st) = (Return r', bump (bump st)) /\
    r' <> r /\
    get r' "ok" = VBool false /\
    get r' "error" = e /\
    forall st',
      next_ref st < next_ref st' ->
      exists r'',
        invoke r "errorResult" NoArg st' = (Return r'', bump st') /\
        err e st' = (Return r'', bump st') /\
        r'' <> r /\
        get r'' "error" = e.
Proof.
  do 2 eexists. split; [reflexivity|]. split; [reflexivity|].
  split; [reflexivity|]. split.
  { intros H. injection H as H. cbn in H. lia. }
  split; [reflexivity|]. split; [reflexivity|].
  intros st' Hlt. eexists. split; [reflexivity|]. split; [reflexivity|].
  split; [| reflexivity].
  intros H. injection H as H. lia.
Qed.

(** X3.  On a Result, exactly one of [onOk] and [onErr] calls its function:
    on an Ok, [onOk(f)] calls [f(value)] and [onErr(f)] calls nothing; on
    an Err it is the other way round; both return the Result itself, and
    [ifOk] and [ifErr] behave as [onOk] and [onErr]. *)
Theorem onOk_onErr_exclusive (r : value) (f : callback) (st : state) :
  (forall v, IsOk r v ->
     invoke r "onOk" (ArgFn f) st = (_ <- call f v ;; ret r) st /\
     invoke r "onErr" (ArgFn f) st = (Return r, st) /\
     invoke r "ifOk" (ArgFn f) st = invoke r "onOk" (ArgFn f) st /\
     invoke r "ifErr" (ArgFn f) st = invoke r "onErr" (ArgFn f) st) /\
  (forall e, IsErr r e ->
     invoke r "onErr" (ArgFn f) st = (_ <- call f e ;; ret r) st /\
     invoke r "onOk" (ArgFn f) st = (Return r, st) /\
     invoke r "ifOk" (ArgFn f) st = invoke r "onOk" (ArgFn f) st /\
     invoke r "ifErr" (ArgFn f) st = invoke r "onErr" (ArgFn f) st).
Proof.
  split.
  - intros v [st0 H]. cbn in H. injection H as <-. repeat split.
  - intros e [st0 H]. cbn in H. injection H as <-. repeat split.
Qed.

(** X4.  [mapErr(f)] returns an Ok unchanged and maps an Err to
    [err(f(error))]; [mapOkAndErr({ ok, err })] maps an Ok to
    [ok(okFn(value))] and an Err to [err(errFn(error))]. *)
Theorem mapErr_and_mapOkAndErr (r : value) (f g : callback) (st : state) :
  (forall v, IsOk r v ->
     invoke r "mapErr" (ArgFn f) st = (Return r, st) /\
     invoke r "mapOkAndErr" (ArgFns f g) st = (y <- call f v ;; ok y) st) /\
  (forall e, IsErr r e ->
     invoke r "mapErr" (ArgFn f) st = (y <- call f e ;; err y) st /\
     invoke r "mapOkAndErr" (ArgFns f g) st = (y <- call g e ;; err y) st).
Proof.
  split.
  - intros v [st0 H]. cbn in H. injection H as <-. repeat split.
  - intros e [st0 H]. cbn in H. injection H as <-. repeat split.
Qed.

(** X5.  [resultify] on a promise returns a promise of a Result: fulfilled
    with [ok(x)] when the promise is fulfilled with [x]; fulfilled with
    [err] of [unknownToError(e)], or of the normalizer's output, when it is
    rejected with [e]; pending when it never settles. *)
Theorem resultify_promise (p : settlement value) (st : state) :
  match p with
  | Fulfilled x =>
      forall normalizer,
      exists r,
        ok x st = (Return r, bump st) /\
        resultify (NotAFunction (VPromise p)) normalizer st
        = (Return (VPromise (Fulfilled r)), bump st)
  | Rejected e =>
      (exists x st1 r,
          unknownToError e st = (Return x, st1) /\
          err x st1 = (Return r, bump st1) /\
          resultify (NotAFunction (VPromise p)) None st
          = (Return (VPromise (Fulfilled r)), bump st1)) /\
      (forall (normalizer : callback) e' u',
          normalizer e (world st) = (Return e', u') ->
          exists r,
            err e' (with_world st u') = (Return r, bump (with_world st u')) /\
            resultify (NotAFunction (VPromise p)) (Some normalizer) st
            = (Return (VPromise (Fulfilled r)), bump (with_world st u')))
  | Pending =>
      forall normalizer,
        resultify (NotAFunction (VPromise p)) normalizer st
        = (Return (VPromise Pending), st)
  end.
Proof.
  destruct p as [x | e | ].
  - intros normalizer. eexists. split; reflexivity.
  - split.
    + destruct (unknownToError_returns_Error e st) as (x & st1 & Hx & _).
      exists x, st1. eexists. split; [exact Hx|]. split; [reflexivity|].
      unfold resultify, bind. cbn. unfold async, bind. rewrite Hx. reflexivity.
    + intros normalizer e' u' Hn. eexists. split; [reflexivity|].
      unfold resultify, bind. cbn. unfold async, bind, call, run.
      rewrite Hn. reflexivity.
  - intros normalizer. reflexivity.
Qed.

(** [getOkErr()] returns the shared constructors, and reading its [_type]
    throws. *)
Lemma getOkErr_shared (st : state) :
  typed_ok getOkErr = ok /\
  typed_err getOkErr = err /\
  typed__type getOkErr st
  = (Throw (VError (next_ref st) "usage as value is not allowed" None),
     bump st).
Proof. repeat split. Qed.


(** *** Invariants of the method set *)

Ltac built H :=
  let st0 := fresh "st0" in
  destruct H as [st0 H]; cbn in H; injection H as <-.

Lemma IsResult_passes_isResult (r : value) :
  IsResult r -> isResult r = true.
Proof. intros [[v H] | [e H]]; built H; reflexivity. Qed.

Lemma Ok_is_Result (r v : value) : IsOk r v -> IsResult r.
Proof. intros H. left. exists v. exact H. Qed.

Lemma Err_is_Result (r e : value) : IsErr r e -> IsResult r.
Proof. intros H. right. exists e. exact H. Qed.

Lemma call_run (f : callback) (x : value) (st : state) :
  call f x st = (fst (f x (world st)), with_world st (snd (f x (world st)))).
Proof. unfold call, run. destruct (f x (world st)); reflexivity. Qed.

(** X6.  The method set is closed over Results: on every Result, whatever
    [mapOk], [mapErr], [onOk], [onErr], [ifOk], [ifErr], [mapOkAndErr] and
    (on an Err) [errorResult] return is again a Result made by [ok] or
    [err], and so passes [isResult]. *)
Theorem methods_return_Results (r : value) (f g : callback) (st : state) :
  IsResult r ->
  (forall name r' st',
      In name [ "mapOk"; "mapErr"; "onOk"; "onErr"; "ifOk"; "ifErr" ] ->
      invoke r name (ArgFn f) st = (Return r', st') ->
      IsResult r' /\ isResult r' = true) /\
  (forall r' st',
      invoke r "mapOkAndErr" (ArgFns f g) st = (Return r', st') ->
      IsResult r' /\ isResult r' = true) /\
  (forall r' st',
      invoke r "errorResult" NoArg st = (Return r', st') ->
      IsResult r' /\ isResult r' = true).
Proof.
  intros Hr.
  assert (Hgoal : forall r', IsResult r' -> IsResult r' /\ isResult r' = true)
    by (intros r' H; split; [exact H | exact (IsResult_passes_isResult r' H)]).
  destruct Hr as [[v Hr] | [e Hr]].
  - assert (Hres : IsResult r) by (left; exists v; exact Hr).
    built Hr. split; [| split].
    + intros name r' st' Hin Hrun. apply Hgoal. clear Hgoal.
      simpl in Hin.
      repeat (destruct Hin as [<- | Hin]); try contradiction;
        cbn in Hrun; unfold okMap, okOnOk, bind in Hrun; cbn in Hrun;
        try (injection Hrun as <- <-; exact Hres);
        rewrite call_run in Hrun; destruct (f v (world st)) as [[y | x | ] u];
        cbn in Hrun; try discriminate Hrun;
        injection Hrun as <- <-; try exact Hres.
      left. exists y. eexists. reflexivity.
    + intros r' st' Hrun. apply Hgoal. clear Hgoal.
      cbn in Hrun. unfold mapOkAndErr, bind in Hrun. cbn in Hrun.
      rewrite call_run in Hrun. destruct (f v (world st)) as [[y | x | ] u];
        cbn in Hrun; try discriminate Hrun.
      injection Hrun as <- <-. left. exists y. eexists. reflexivity.
    + intros r' st' Hrun. cbn in Hrun. discriminate Hrun.
  - assert (Hres : IsResult r) by (right; exists e; exact Hr).
    built Hr. split; [| split].
    + intros name r' st' Hin Hrun. apply Hgoal. clear Hgoal.
      simpl in Hin.
      repeat (destruct Hin as [<- | Hin]); try contradiction;
        cbn in Hrun; unfold errMap, errOnErr, bind in Hrun; cbn in Hrun;
        try (injection Hrun as <- <-; exact Hres);
        rewrite call_run in Hrun; destruct (f e (world st)) as [[y | x | ] u];
        cbn in Hrun; try discriminate Hrun;
        injection Hrun as <- <-; try exact Hres.
      right. exists y. eexists. reflexivity.
    + intros r' st' Hrun. apply Hgoal. clear Hgoal.
      cbn in Hrun. unfold mapOkAndErr, bind in Hrun. cbn in Hrun.
      rewrite call_run in Hrun. destruct (g e (world st)) as [[y | x | ] u];
        cbn in Hrun; try discriminate Hrun.
      injection Hrun as <- <-. right. exists y. eexists. reflexivity.
    + intros r' st' Hrun. apply Hgoal. clear Hgoal.
      cbn in Hrun. injection Hrun as <- <-.
      right. exists e. eexists. reflexivity.
Qed.

(** X8.  A method throws only what its function throws: when the function
    of the matching branch throws [x], [mapOk], [onOk], [mapErr], [onErr]
    and [mapOkAndErr] throw that same [x], build no Result and allocate
    nothing; the function of the other branch is never called. *)
Theorem methods_propagate_throw (r x : value) (f g : callback) (u : U)
  (st : state) :
  (forall v, IsOk r v -> f v (world st) = (Throw x, u) ->
     invoke r "mapOk" (ArgFn f) st = (Throw x, with_world st u) /\
     invoke r "onOk" (ArgFn f) st = (Throw x, with_world st u) /\
     invoke r "mapOkAndErr" (ArgFns f g) st = (Throw x, with_world st u) /\
     invoke r "mapErr" (ArgFn f) st = (Return r, st) /\
     invoke r "onErr" (ArgFn f) st = (Return r, st)) /\
  (forall e, IsErr r e -> f e (world st) = (Throw x, u) ->
     invoke r "mapErr" (ArgFn f) st = (Throw x, with_world st u) /\
     invoke r "onErr" (ArgFn f) st = (Throw x, with_world st u) /\
     invoke r "mapOkAndErr" (ArgFns g f) st = (Throw x, with_world st u) /\
     invoke r "mapOk" (ArgFn f) st = (Return r, st) /\
     invoke r "onOk" (ArgFn f) st = (Return r, st)).
Proof.
  split.
  - intros v Hr Hf. built Hr. cbn.
    unfold okMap, okOnOk, mapOkAndErr, bind. cbn.
    rewrite !call_run, Hf. repeat split.
  - intros e Hr Hf. built Hr. cbn.
    unfold errMap, errOnErr, mapOkAndErr, bind. cbn.
    rewrite !call_run, Hf. repeat split.
Qed.

Lemma mapErr_on_Err (r e : value) (f : callback) (st : state) :
  IsErr r e ->
  invoke r "mapErr" (ArgFn f) st = (y <- call f e ;; err y) st.
Proof. intros H. built H. reflexivity. Qed.

Lemma mapErr_on_Ok (r v : value) (a : arg) (st : state) :
  IsOk r v -> invoke r "mapErr" a st = (Return r, st).
Proof. intros H. built H. reflexivity. Qed.

Lemma IsErr_observably_equal (r1 r2 e : value) :
  IsErr r1 e -> IsErr r2 e -> observably_equal r1 r2.
Proof. intros H1 H2. built H1. built H2. repeat split. Qed.

Lemma with_world_same (st : state) : with_world st (world st) = st.
Proof. destruct st; reflexivity. Qed.

(** X9.  [mapErr] satisfies the laws [mapOk] does: for every Result [r],
    [r.mapErr(id)] is observably equal to [r], and [r.mapErr(f).mapErr(g)]
    is observably equal to [r.mapErr(x => g(f(x)))]; on an Ok each of these
    returns [r] itself. *)
Theorem mapErr_identity_and_composition (r : value) (f g : callback)
  (st : state) :
  IsResult r ->
  same_run observably_equal
    (invoke r "mapErr" (ArgFn identity) st) (Return r, st) /\
  same_run observably_equal
    ((r' <- invoke r "mapErr" (ArgFn f) ;; invoke r' "mapErr" (ArgFn g)) st)
    (invoke r "mapErr" (ArgFn (compose g f)) st) /\
  (forall v, IsOk r v ->
     invoke r "mapErr" (ArgFn identity) st = (Return r, st) /\
     (r' <- invoke r "mapErr" (ArgFn f) ;; invoke r' "mapErr" (ArgFn g)) st
     = (Return r, st) /\
     invoke r "mapErr" (ArgFn (compose g f)) st = (Return r, st)).
Proof.
  assert (Hok_case : forall v, IsOk r v ->
     invoke r "mapErr" (ArgFn identity) st = (Return r, st) /\
     (r' <- invoke r "mapErr" (ArgFn f) ;; invoke r' "mapErr" (ArgFn g)) st
     = (Return r, st) /\
     invoke r "mapErr" (ArgFn (compose g f)) st = (Return r, st)).
  { intros v Hv. unfold bind.
    repeat (first [ rewrite (mapErr_on_Ok r v _ st Hv)
                  | progress cbv beta iota ]).
    repeat split. }
  intros [[v Hr] | [e Hr]].
  - destruct (Hok_case v Hr) as (H1 & H2 & H3).
    rewrite H1, H2, H3. repeat split; trivial.
  - split; [| split].
    + rewrite (mapErr_on_Err r e identity st Hr).
      destruct (err_returns e st) as (r1 & Hr1 & Herr1).
      unfold bind, call, run, identity. cbn [world].
      fold (with_world st (world st)). rewrite with_world_same.
      rewrite Hr1. split; [reflexivity|].
      cbn [fst]. exact (IsErr_observably_equal r1 r e Herr1 Hr).
    + unfold bind at 1.
      rewrite (mapErr_on_Err r e f st Hr), (mapErr_on_Err r e (compose g f) st Hr).
      unfold bind, call, run, compose.
      destruct (f e (world st)) as [[y | x | ] u]; [| repeat split ..].
      destruct (err_returns y (mkState (next_ref st) u)) as (r1 & Hr1 & Herr1).
      rewrite Hr1. rewrite (mapErr_on_Err r1 y g _ Herr1).
      unfold bind, call, run. cbn [world bump next_ref].
      destruct (g y u) as [[z | x | ] u']; [| repeat split ..].
      destruct (err_returns z (mkState (S (next_ref st)) u')) as (r2 & Hr2 & Herr2).
      destruct (err_returns z (mkState (next_ref st) u')) as (r3 & Hr3 & Herr3).
      rewrite Hr2, Hr3. split; [reflexivity|].
      cbn [fst]. exact (IsErr_observably_equal r2 r3 z Herr2 Herr3).
    + intros v Hv. exact (Hok_case v Hv).
Qed.

(** X10.  [mapOkAndErr({ ok, err })] is [mapOk(ok)] followed by
    [mapErr(err)], in either order: the three runs call the same function
    on the same payload and end the same way, with the same new Result or
    the same thrown value. *)
Theorem mapOkAndErr_decomposes (r : value) (f g : callback) (st : state) :
  IsResult r ->
  invoke r "mapOkAndErr" (ArgFns f g) st
  = (r' <- invoke r "mapOk" (ArgFn f) ;; invoke r' "mapErr" (ArgFn g)) st /\
  invoke r "mapOkAndErr" (ArgFns f g) st
  = (r' <- invoke r "mapErr" (ArgFn g) ;; invoke r' "mapOk" (ArgFn f)) st.
Proof.
  intros [[v Hr] | [e Hr]].
  - assert (Hboth : invoke r "mapOkAndErr" (ArgFns f g) st
                    = (y <- call f v ;; ok y) st) by (built Hr; reflexivity).
    rewrite Hboth. split.
    + unfold bind. rewrite (mapOk_on_Ok r v f st Hr). unfold bind.
      rewrite call_run.
      destruct (f v (world st)) as [[y | x | ] u]; reflexivity.
    + unfold bind. rewrite (mapErr_on_Ok r v _ st Hr).
      rewrite (mapOk_on_Ok r v f st Hr). reflexivity.
  - assert (Hboth : invoke r "mapOkAndErr" (ArgFns f g) st
                    = (y <- call g e ;; err y) st) by (built Hr; reflexivity).
    rewrite Hboth. split.
    + unfold bind. rewrite (mapOk_on_Err r e _ st Hr).
      rewrite (mapErr_on_Err r e g st Hr). reflexivity.
    + unfold bind. rewrite (mapErr_on_Err r e g st Hr). unfold bind.
      rewrite call_run.
      destruct (g e (world st)) as [[y | x | ] u]; reflexivity.
Qed.

(** *** The promise helpers *)

(** X11.  On a promise fulfilled with a Result [r], [asyncMap] does what the
    methods of [r] do: [okAndErr] is [r.mapOkAndErr], [ok] on an Ok is
    [r.mapOk] and [err] on an Err is [r.mapErr], each wrapped in a promise
    that rejects with what the function throws.  On the other branch, where
    [mapOk] and [mapErr] return [r] itself, [asyncMap] builds a new Result
    with the same value or error. *)
Theorem asyncMap_follows_methods (r : value) (f g : callback) (st : state) :
  IsResult r ->
  map_okAndErr (asyncMap (VPromise (Fulfilled r))) f g st
  = async (invoke r "mapOkAndErr" (ArgFns f g)) st /\
  (forall v, IsOk r v ->
     map_ok (asyncMap (VPromise (Fulfilled r))) f st
     = async (invoke r "mapOk" (ArgFn f)) st /\
     exists r',
       ok v st = (Return r', bump st) /\
       map_err (asyncMap (VPromise (Fulfilled r))) f st
       = (Return (VPromise (Fulfilled r')), bump st)) /\
  (forall e, IsErr r e ->
     map_err (asyncMap (VPromise (Fulfilled r))) f st
     = async (invoke r "mapErr" (ArgFn f)) st /\
     exists r',
       err e st = (Return r', bump st) /\
       map_ok (asyncMap (VPromise (Fulfilled r))) f st
       = (Return (VPromise (Fulfilled r')), bump st)).
Proof.
  intros Hr. split; [| split].
  - destruct Hr as [[v Hr] | [e Hr]]; built Hr; reflexivity.
  - intros v Hv. built Hv. split; [reflexivity|].
    eexists. split; reflexivity.
  - intros e He. built He. split; [reflexivity|].
    eexists. split; reflexivity.
Qed.

(** X12.  [asyncUnwrap] of a promise fulfilled with a Result [r] is
    [r.unwrap()] moved into a promise: it resolves with what [unwrap]
    returns and rejects with exactly what [unwrap] throws. *)
Theorem asyncUnwrap_is_async_unwrap (r : value) (st : state) :
  IsResult r ->
  asyncUnwrap (VPromise (Fulfilled r)) st
  = async (invoke r "unwrap" NoArg) st.
Proof.
  intros [[v Hr] | [e Hr]]; built Hr; reflexivity.
Qed.

(** X13.  [asyncUnwrap] and the three functions of [asyncMap] catch nothing:
    a rejected promise gives a promise rejected with the same reason, a
    promise that never settles gives one that never settles, and in both
    cases no function is called and nothing is allocated. *)
Theorem async_helpers_pass_through (e : value) (f g : callback) (st : state) :
  (asyncUnwrap (VPromise (Rejected e)) st
   = (Return (VPromise (Rejected e)), st) /\
   map_ok (asyncMap (VPromise (Rejected e))) f st
   = (Return (VPromise (Rejected e)), st) /\
   map_err (asyncMap (VPromise (Rejected e))) f st
   = (Return (VPromise (Rejected e)), st) /\
   map_okAndErr (asyncMap (VPromise (Rejected e))) f g st
   = (Return (VPromise (Rejected e)), st)) /\
  (asyncUnwrap (VPromise Pending) st = (Return (VPromise Pending), st) /\
   map_ok (asyncMap (VPromise Pending)) f st
   = (Return (VPromise Pending), st) /\
   map_err (asyncMap (VPromise Pending)) f st
   = (Return (VPromise Pending), st) /\
   map_okAndErr (asyncMap (VPromise Pending)) f g st
   = (Return (VPromise Pending), st)).
Proof. repeat split. Qed.

(** *** [resultify], further *)

Lemma resultify_returned_promise (fn : thunk)
  (normalizer : option callback) (st : state) (p : settlement value) (u : U) :
  fn (world st) = (Return (VPromise p), u) ->
  resultify (AFunction fn) normalizer st
  = resultify (NotAFunction (VPromise p)) normalizer (with_world st u).
Proof.
  intros Hfn. unfold resultify, try_catch, bind at 1, run. rewrite Hfn.
  fold (with_world st u). cbn [isPromise].
  destruct p as [x | e | ]; try reflexivity.
  unfold bind. cbn [promise_then promise_catch ret]. unfold async.
  destruct normalizer as [n | ].
  - rewrite call_run. destruct (n e (world (with_world st u))) as [[y | x | ] u'];
      reflexivity.
  - destruct (unknownToError_returns_Error e (with_world st u))
      as (x & st1 & Hx & _).
    rewrite Hx. reflexivity.
Qed.

(** X14.  A function that returns a promise is treated as that promise:
    [resultify(fn)] is [resultify(p)] for the promise [p] that [fn]
    returns, run after [fn]. *)
Theorem resultify_function_returning_promise (fn : thunk)
  (normalizer : option callback) (st : state) (p : settlement value) (u : U) :
  fn (world st) = (Return (VPromise p), u) ->
  resultify (AFunction fn) normalizer st
  = resultify (NotAFunction (VPromise p)) normalizer (with_world st u).
Proof.
  intros Hfn. rewrite (resultify_returned_promise fn normalizer st p u Hfn).
  reflexivity.
Qed.

(** X15.  An exception of the normalizer is not caught: when the function
    throws [e] and [errorNormalizer(e)] throws [x], [resultify] itself
    throws [x]; when a promise rejects with [e], the promise [resultify]
    returns rejects with [x]. *)
Theorem resultify_normalizer_throws (n : callback) (e x : value) (u u' : U)
  (st : state) :
  n e u = (Throw x, u') ->
  (forall fn : thunk,
      fn (world st) = (Throw e, u) ->
      resultify (AFunction fn) (Some n) st = (Throw x, with_world st u')) /\
  (forall fn : thunk,
      fn (world st) = (Return (VPromise (Rejected e)), u) ->
      resultify (AFunction fn) (Some n) st
      = (Return (VPromise (Rejected x)), with_world st u')) /\
  (world st = u ->
   resultify (NotAFunction (VPromise (Rejected e))) (Some n) st
   = (Return (VPromise (Rejected x)), with_world st u')).
Proof.
  intros Hn. split; [| split].
  - intros fn Hfn. unfold resultify, try_catch, bind, run. rewrite Hfn.
    rewrite call_run. cbn [world]. rewrite Hn. reflexivity.
  - intros fn Hfn. unfold resultify, try_catch, bind, run. rewrite Hfn.
    cbn. unfold async. rewrite call_run. cbn [world]. rewrite Hn. reflexivity.
  - intros Hu. unfold resultify, bind. cbn. unfold async.
    rewrite call_run, Hu, Hn. destruct st; cbn in *; subst; reflexivity.
Qed.

(** X16.  Without a normalizer [resultify] never throws and never returns a
    promise that rejects, on a promise and on a function that throws,
    returns a promise, or returns a value that is not thenable: it returns
    a Result, or a promise that is pending or fulfilled with a Result. *)
Theorem resultify_without_normalizer (st : state) :
  (forall (fn : thunk) o u,
      fn (world st) = (o, u) -> plain_or_promise o ->
      exists res st',
        resultify (AFunction fn) None st = (Return res, st') /\
        (IsResult res \/ promise_of_Result res)) /\
  (forall p,
      exists res st',
        resultify (NotAFunction (VPromise p)) None st = (Return res, st') /\
        promise_of_Result res).
Proof.
  assert (Hp : forall p st0,
      exists res st',
        resultify (NotAFunction (VPromise p)) None st0 = (Return res, st') /\
        promise_of_Result res).
  { intros p st0. destruct p as [x | e | ].
    - do 2 eexists. split; [reflexivity|].
      eexists. split; [reflexivity|]. right. eexists. split; [reflexivity|].
      left. exists x, st0. reflexivity.
    - destruct (unknownToError_returns_Error e st0) as (x & st1 & Hx & _).
      unfold resultify, bind. cbn. unfold async, bind. rewrite Hx.
      do 2 eexists. split; [reflexivity|].
      eexists. split; [reflexivity|]. right. eexists. split; [reflexivity|].
      right. exists x, st1. reflexivity.
    - do 2 eexists. split; [reflexivity|].
      eexists. split; [reflexivity|]. left. reflexivity. }
  split; [| exact (fun p => Hp p st)].
  intros fn o u Hfn Ho. destruct o as [r | e | ]; [| | now elim Ho].
  - destruct Ho as [Hr | [p ->]].
    + rewrite (resultify_returned fn None st r u Hfn Hr).
      destruct (ok_returns r (with_world st u)) as (res & Hres & Hok).
      exists res, (bump (with_world st u)). split; [exact Hres|].
      left. exact (Ok_is_Result res r Hok).
    + rewrite (resultify_returned_promise fn None st p u Hfn).
      destruct (Hp p (with_world st u)) as (res & st' & Hres & Hprom).
      exists res, st'. split; [exact Hres | right; exact Hprom].
  - rewrite (resultify_threw fn st e u Hfn).
    destruct (unknownToError_returns_Error e (with_world st u))
      as (x & st1 & Hx & _).
    destruct (err_returns x st1) as (res & Hres & Herr).
    unfold bind. rewrite Hx. exists res, (bump st1).
    split; [exact Hres|]. left. exact (Err_is_Result res x Herr).
Qed.

(** *** Normalization and unwrapping, together *)

(** X17.  [unknownToError] is idempotent: applied to its own result it
    returns that same error again and allocates nothing. *)
Theorem unknownToError_idempotent (v : value) (st : state) :
  exists x st',
    unknownToError v st = (Return x, st') /\
    unknownToError x st' = (Return x, st').
Proof.
  destruct (unknownToError_returns_Error v st) as (x & st' & Hx & Herr & _).
  exists x, st'. split; [exact Hx|].
  unfold unknownToError. rewrite Herr. reflexivity.
Qed.

(** X18.  [resultify] followed by [unwrap()] gives back what the function
    did: its return value when it returned one that [isPromise] rejects (no
    promise, no thenable), and when it threw, the thrown
    native error itself, or for another thrown value the one error
    [unknownToError] made of it ([unwrap] does not wrap it again). *)
Theorem resultify_unwrap_round_trip (fn : thunk) (st : state) :
  (forall r u normalizer,
      fn (world st) = (Return r, u) -> isPromise r = false ->
      (res <- resultify (AFunction fn) normalizer ;; invoke res "unwrap" NoArg)
        st
      = (Return r, bump (with_world st u))) /\
  (forall e u,
      fn (world st) = (Throw e, u) ->
      exists x st1,
        unknownToError e (with_world st u) = (Return x, st1) /\
        (instanceofError e = true -> x = e /\ st1 = with_world st u) /\
        (res <- resultify (AFunction fn) None ;; invoke res "unwrap" NoArg) st
        = (Throw x, bump st1)).
Proof.
  split.
  - intros r u normalizer Hfn Hr. unfold bind.
    rewrite (resultify_returned fn normalizer st r u Hfn Hr). reflexivity.
  - intros e u Hfn.
    destruct (unknownToError_returns_Error e (with_world st u))
      as (x & st1 & Hx & Herr & _).
    exists x, st1. split; [exact Hx|]. split.
    + intros He. unfold unknownToError in Hx. rewrite He in Hx.
      injection Hx as <- <-. split; reflexivity.
    + unfold bind at 1. rewrite (resultify_threw fn st e u Hfn).
      unfold bind. rewrite Hx. cbn. unfold err_unwrap. rewrite Herr.
      reflexivity.
Qed.

(** X19.  The two fields tell the branch apart, each on its own: an Ok has
    a truthy [ok] and a falsy [error]; an Err of a valid error payload has
    a falsy [ok] and a truthy [error]; and no value is both an Ok and an
    Err. *)
Theorem error_is_a_second_tag (r : value) :
  (forall v, IsOk r v ->
     truthy (get r "ok") = true /\ truthy (get r "error") = false) /\
  (forall e, IsErr r e -> ResultValidErrors e = true ->
     truthy (get r "ok") = false /\ truthy (get r "error") = true) /\
  (forall v e, IsOk r v -> IsErr r e -> False).
Proof.
  split; [| split].
  - intros v H. built H. split; reflexivity.
  - intros e H He. built H. split; [reflexivity|].
    cbn. destruct e as [ | | [ | ] | | | | | | | ]; try discriminate He;
      reflexivity.
  - intros v e Hv He.
    destruct (IsOk_inv r v Hv) as (_ & _ & _ & Hok & _).
    destruct (IsErr_inv r e He) as (_ & _ & _ & Hok' & _).
    rewrite Hok in Hok'. discriminate Hok'.
Qed.

(** X20.  On every Result, [unwrapOr(d)] and [unwrapOrNull()] never throw,
    call nothing and allocate nothing; [unwrapOrNull()] is [unwrapOr(null)],
    and [unwrapOr(d)] returns the value of an Ok and [d] on an Err. *)
Theorem unwrapOr_total (r d : value) (st : state) :
  IsResult r ->
  invoke r "unwrapOrNull" NoArg st = invoke r "unwrapOr" (ArgValue VNull) st /\
  exists x,
    invoke r "unwrapOr" (ArgValue d) st = (Return x, st) /\
    (IsOk r x \/ ((exists e, IsErr r e) /\ x = d)).
Proof.
  intros [[v Hr] | [e Hr]].
  - assert (H : IsOk r v) by exact Hr. built Hr.
    split; [reflexivity|]. exists v. split; [reflexivity | left; exact H].
  - assert (H : IsErr r e) by exact Hr. built Hr.
    split; [reflexivity|]. exists d. split; [reflexivity|].
    right. split; [exists e; exact H | reflexivity].
Qed.

(** X7.  [errId(id)] is an Err that passes [isResult]; its error is a new
    object whose [id] member is [id], a valid error payload; and its
    [unwrap()] throws a new native error whose cause is that object and
    whose message is the object's JSON text, or [unknown]. *)
Theorem errId_behaviour (id : string) (st : state) :
  exists o r,
    errId id st = (Return r, bump (bump st)) /\
    IsErr r o /\
    isResult r = true /\
    get o "id" = VString id /\
    ResultValidErrors o = true /\
    forall st',
      invoke r "unwrap" NoArg st'
      = (Throw
           (VError (next_ref st') (nullish (safeJsonStringify o) "unknown")
              (Some o)),
         bump st').
Proof.
  do 2 eexists. split; [reflexivity|].
  split; [exists (bump st); reflexivity|].
  repeat split.
Qed.

(** X21.  [asyncUnwrap] undoes [resultify] on a promise: the promise
    [asyncUnwrap(resultify(p))] is resolved with the value [p] is fulfilled
    with, rejected with the native error [p] is rejected with (or with
    [unknownToError] of another reason), and pending when [p] never
    settles. *)
Theorem asyncUnwrap_resultify_round_trip (p : settlement value) (st : state) :
  match p with
  | Fulfilled x =>
      (q <- resultify (NotAFunction (VPromise p)) None ;; asyncUnwrap q) st
      = (Return (VPromise (resolve x)), bump st)
  | Rejected e =>
      exists x st1,
        unknownToError e st = (Return x, st1) /\
        (instanceofError e = true -> x = e /\ st1 = st) /\
        (q <- resultify (NotAFunction (VPromise p)) None ;; asyncUnwrap q) st
        = (Return (VPromise (Rejected x)), bump st1)
  | Pending =>
      (q <- resultify (NotAFunction (VPromise p)) None ;; asyncUnwrap q) st
      = (Return (VPromise Pending), st)
  end.
Proof.
  destruct p as [x | e | ]; try reflexivity.
  destruct (unknownToError_returns_Error e st) as (x & st1 & Hx & Herr & _).
  exists x, st1. split; [exact Hx|]. split.
  - intros He. unfold unknownToError in Hx. rewrite He in Hx.
    injection Hx as <- <-. split; reflexivity.
  - unfold resultify, bind. cbn. unfold async, bind. rewrite Hx. cbn.
    rewrite Herr. reflexivity.
Qed.

(** X22.  [isResult] reads only [ok], [error] and the eight method names:
    two values of the same [typeof] and nullness that agree on these
    members get the same answer, whatever else they hold ([value],
    [errorResult], [ifOk], [ifErr], or members of their own). *)
Theorem isResult_reads_guarded_members_only (v w : value) :
  typeof v = typeof w ->
  is_null v = is_null w ->
  (forall k, In k guarded_members ->
     lookup k (members v) = lookup k (members w)) ->
  isResult v = isResult w.
Proof.
  intros Hty Hnull Hk. unfold isResult, hasMethod, has_property, get.
  rewrite Hty, Hnull.
  rewrite (Hk "ok"), (Hk "error"), (Hk "unwrapOrNull"), (Hk "unwrapOr"),
    (Hk "unwrap"), (Hk "mapOk"), (Hk "mapErr"), (Hk "mapOkAndErr"),
    (Hk "onOk"), (Hk "onErr") by (simpl; tauto).
  reflexivity.
Qed.

End Library.

(** ** Concrete runs *)

(** The hypothesis of C2 holds of the array [[ 'string' ]] (an array is a
    valid error payload): [err] of it keeps the array as its [error], and
    [unwrap()] throws a new native error whose message is the array's JSON
    text and whose cause is the array (tests/tsResult.test.ts 86-90). *)
Lemma err_constructs_Err_witness :
  let e := VArray 0 [VString "string"] in
  let st := mkState 1 tt in
  ResultValidErrors e = true /\
  exists r,
    err e st = (Return r, bump st) /\
    get r "error" = e /\
    invoke (ext := stringify_gives (Some json_string_array))
      r "unwrap" NoArg (bump st)
    = (Throw (VError 2 json_string_array (Some e)), mkState 3 tt).
Proof.
  split; [reflexivity|].
  destruct (err_constructs_Err (ext := stringify_gives (Some json_string_array))
              (VArray 0 [VString "string"]) VNull (mkState 1 tt) eq_refl)
    as (r & Hr & _ & He & Hm).
  exists r. split; [exact Hr|]. split; [exact He|].
  cbn in Hr. injection Hr as <-. reflexivity.
Defined.

(** The hypotheses of C4 hold of [{ message: 'm', x: 1 }]: the new error
    has message [m] and the object as its cause. *)
Lemma unknownToError_object_witness :
  let o := VObject 0 [ ("message", VString "m"); ("x", VNumber 1) ] in
  let st := mkState 1 tt in
  isObject o = true /\
  instanceofError o = false /\
  unknownToError (ext := stringify_gives None) o st
  = (Return (VError 1 "m" (Some o)), bump st).
Proof.
  split; [reflexivity|]. split; [reflexivity|].
  destruct (unknownToError_object (ext := stringify_gives None)
              (VObject 0 [ ("message", VString "m"); ("x", VNumber 1) ])
              (mkState 1 tt) eq_refl eq_refl)
    as (message & Hrun & Hmsg & _).
  rewrite Hrun.
  rewrite (Hmsg "m" eq_refl) by discriminate. reflexivity.
Defined.

(** C4 as the spec states it fails on [{ message: '' }]: the member is a
    string, yet the message of the new error is the object's JSON text. *)
Lemma unknownToError_empty_message_counterexample :
  let o := VObject 0 [ ("message", VString "") ] in
  let st := mkState 1 tt in
  isObject o = true /\
  instanceofError o = false /\
  get o "message" = VString "" /\
  unknownToError (ext := stringify_gives (Some json_empty_message)) o st
  = (Return (VError 1 json_empty_message (Some o)), bump st) /\
  json_empty_message <> "".
Proof.
  repeat split. discriminate.
Qed.

(** The hypothesis of C9 holds of [ok(5)]: mapping the identity over it
    gives an Ok of 5 again, in a new object. *)
Lemma mapOk_identity_and_composition_witness :
  let st := mkState 0 tt in
  exists r,
    ok (VNumber 5) st = (Return r, bump st) /\
    IsResult (U := unit) r /\
    same_run observably_equal
      (invoke (ext := stringify_gives None) r "mapOk" (ArgFn identity)
         (bump st))
      (Return r, bump st).
Proof.
  cbv zeta. eexists. split; [reflexivity|].
  match goal with
  | |- IsResult ?r /\ _ =>
      assert (H : IsResult (U := unit) r)
        by (left; exists (VNumber 5), (mkState 0 tt); reflexivity)
  end.
  split; [exact H|].
  exact (proj1 (mapOk_identity_and_composition (ext := stringify_gives None)
                  _ identity identity (bump (mkState 0 tt)) H)).
Defined.

(** C10 as the spec states it fails on ['boom']: the standalone
    [unknownToError] returns a native error, the member of [Result] an Err
    that wraps it. *)
Lemma Result_unknownToError_counterexample :
  let st := mkState 0 tt in
  fst (unknownToError (ext := stringify_gives None) (VString "boom") st)
  = Return (VError 0 "boom" None) /\
  exists r,
    fst (Result_unknownToError (Result (ext := stringify_gives None))
           (VString "boom") st) = Return r /\
    instanceofError r = false /\
    isResult r = true /\
    get r "ok" = VBool false /\
    get r "error" = VError 0 "boom" None /\
    r <> VError 0 "boom" None.
Proof.
  split; [reflexivity|]. eexists. split; [reflexivity|].
  repeat split. discriminate.
Qed.

(** ** The repository's tests, run on the model *)

(** "basic functioning" (tests/tsResult.test.ts 39-55). *)
Example test_basic_functioning :
  let st := mkState 0 tt in
  (exists r st',
      divide (ext := stringify_gives None) 10 2 st = (Return r, st') /\
      get r "ok" = VBool true /\ get r "value" = VNumber 5) /\
  (exists r st',
      divide (ext := stringify_gives None) 10 0 st = (Return r, st') /\
      get r "ok" = VBool false /\
      get r "error" = VError 0 "Cannot divide by zero" None /\
      invoke (ext := stringify_gives None) r "unwrapOrNull" NoArg st'
      = (Return VNull, st') /\
      invoke (ext := stringify_gives None) r "unwrapOr" (ArgValue (VNumber 0)) st'
      = (Return (VNumber 0), st') /\
      invoke (ext := stringify_gives None) r "unwrap" NoArg st'
      = (Throw (VError 0 "Cannot divide by zero" None), st')).
Proof.
  split; do 2 eexists; (split; [reflexivity|]); repeat split.
Qed.

(** "rethrowing error results" and "result.errorResult()" (57-73, 103-118):
    [errorResult()] gives an Err with the same error. *)
Example test_errorResult :
  let st := mkState 0 tt in
  exists r st' r' st'',
    divide (ext := stringify_gives None) 10 0 st = (Return r, st') /\
    invoke (ext := stringify_gives None) r "errorResult" NoArg st'
    = (Return r', st'') /\
    get r' "ok" = VBool false /\
    get r' "error" = VError 0 "Cannot divide by zero" None.
Proof.
  do 4 eexists. split; [reflexivity|]. split; [reflexivity|].
  split; reflexivity.
Qed.

(** "resultify should return a normalized error" (120-134): the error of
    the result is the thrown instance. *)
Example test_resultify_thrown_Error :
  let errorToThrow := VError 0 "Cannot divide by zero" None in
  let st := mkState 1 tt in
  exists r st',
    resultify (ext := stringify_gives None)
      (AFunction (fun u => (Throw errorToThrow, u))) None st
    = (Return r, st') /\
    get r "ok" = VBool false /\
    get r "error" = errorToThrow.
Proof.
  do 2 eexists. split; [reflexivity|]. split; reflexivity.
Qed.

(** "resultify should handle async functions with custom error normalizer"
    (189-201): a function whose promise rejects with ['Custom error'], and
    a normalizer that builds an array. *)
Example test_resultify_async_normalizer :
  let st := mkState 1 tt in
  let normalizer : callback := fun err u =>
    (Return (VArray 0 [VString ("Normalized: " ++ text_of err)]), u) in
  exists r st',
    resultify (ext := stringify_gives None)
      (AFunction
         (fun u => (Return (VPromise (Rejected (VString "Custom error"))), u)))
      (Some normalizer) st
    = (Return (VPromise (Fulfilled r)), st') /\
    get r "ok" = VBool false /\
    get r "error" = VArray 0 [VString "Normalized: Custom error"].
Proof.
  do 2 eexists. split; [reflexivity|]. split; reflexivity.
Qed.

(** "Result.unwrap() async results" (219-225). *)
Example test_asyncUnwrap :
  let st := mkState 0 tt in
  exists r st',
    divide (ext := stringify_gives None) 10 2 st = (Return r, st') /\
    asyncUnwrap (ext := stringify_gives None) (VPromise (Fulfilled r)) st'
    = (Return (VPromise (Fulfilled (VNumber 5))), st').
Proof.
  do 2 eexists. split; reflexivity.
Qed.

(** "Result.unknownToError() error" (228-244): an object with a message,
    a native error, and a string. *)
Example test_Result_unknownToError :
  let st := mkState 2 tt in
  let o := VObject 1
    [ ("id", VString "testError");
      ("message", VString "Cannot divide by zero");
      ("metadata", VObject 0 [ ("testMetadata", VString "testMetadata") ]) ] in
  let e := VError 0 "Cannot divide by zero" None in
  (exists r st',
      Result_unknownToError (Result (ext := stringify_gives None)) o st
      = (Return r, st') /\
      get r "error" = VError 2 "Cannot divide by zero" (Some o)) /\
  (exists r st',
      Result_unknownToError (Result (ext := stringify_gives None)) e st
      = (Return r, st') /\
      get r "error" = e) /\
  (exists r st',
      Result_unknownToError (Result (ext := stringify_gives None))
        (VString "Cannot divide by zero") st
      = (Return r, st') /\
      get r "error" = VError 2 "Cannot divide by zero" None).
Proof.
  repeat split; do 2 eexists; split; reflexivity.
Qed.

(** "map ok result", "map err result" (247-260). *)
Example test_map :
  let st := mkState 0 tt in
  let triple : callback := fun v u =>
    match v with
    | VNumber n => (Return (VNumber (n * 3)), u)
    | _ => (Unmodelled, u)
    end in
  let mapped : callback := fun error u =>
    (Return (VArray 0 [VString ("Mapped err: " ++ text_of (get error "message"))]),
     u) in
  (exists r st' r' st'',
      divide (ext := stringify_gives None) 10 2 st = (Return r, st') /\
      invoke (ext := stringify_gives None) r "mapOk" (ArgFn triple) st'
      = (Return r', st'') /\
      get r' "ok" = VBool true /\ get r' "value" = VNumber 15) /\
  (exists r st' r' st'',
      divide (ext := stringify_gives None) 10 0 st = (Return r, st') /\
      invoke (ext := stringify_gives None) r "mapErr" (ArgFn mapped) st'
      = (Return r', st'') /\
      get r' "error" = VArray 0 [VString "Mapped err: Cannot divide by zero"]).
Proof.
  split; do 4 eexists; (split; [reflexivity|]); (split; [reflexivity|]);
    repeat split.
Qed.

(** [isResult] looks at the shape only: an object made by hand with a
    boolean [ok], an [error] and functions of its own under the eight names
    passes, and stops passing when one of them is taken away. *)
Example test_isResult_look_alike :
  let methods :=
    [ ("unwrapOrNull", VFunction (Fn_foreign 0));
      ("unwrapOr", VFunction (Fn_foreign 1));
      ("unwrap", VFunction (Fn_foreign 2));
      ("mapOk", VFunction (Fn_foreign 3));
      ("mapErr", VFunction (Fn_foreign 4));
      ("mapOkAndErr", VFunction (Fn_foreign 5));
      ("onOk", VFunction (Fn_foreign 6)) ] in
  isResult
    (VObject 0
       ([ ("ok", VBool false); ("error", VUndefined) ] ++ methods
        ++ [ ("onErr", VFunction (Fn_foreign 7)) ])) = true /\
  isResult (VObject 0 ([ ("ok", VBool false); ("error", VUndefined) ] ++ methods))
  = false /\
  isResult
    (VObject 0
       ([ ("ok", VNumber 1); ("error", VUndefined) ] ++ methods
        ++ [ ("onErr", VFunction (Fn_foreign 7)) ])) = false.
Proof. repeat split. Qed.

(** Hooks fire only on their branch: with the caller's world a log of the
    values seen, chaining [onOk] and [onErr] on [ok(5)] logs 5 once, and on
    an Err logs the error once. *)
Example test_hooks_log :
  let log : callback := fun v seen => (Return VUndefined, (seen ++ [v])%list) in
  let st := mkState 0 ([] : list value) in
  (exists r st1 st2 st3,
      ok (VNumber 5) st = (Return r, st1) /\
      invoke (ext := stringify_gives None) r "onOk" (ArgFn log) st1
      = (Return r, st2) /\
      invoke (ext := stringify_gives None) r "onErr" (ArgFn log) st2
      = (Return r, st3) /\
      world st3 = [VNumber 5]) /\
  (exists r st1 st2 st3,
      err (VBool true) st = (Return r, st1) /\
      invoke (ext := stringify_gives None) r "onOk" (ArgFn log) st1
      = (Return r, st2) /\
      invoke (ext := stringify_gives None) r "onErr" (ArgFn log) st2
      = (Return r, st3) /\
      world st3 = [VBool true]).
Proof.
  split; do 4 eexists; repeat (split; [reflexivity|]); reflexivity.
Qed.

(** ** Inputs that meet the hypotheses of the further properties *)

Ltac sample_is_Result v H :=
  match goal with
  | |- IsResult ?r /\ _ =>
      assert (H : IsResult (U := unit) r)
        by (first [ left; exists v, (mkState 0 tt); reflexivity
                  | right; exists v, (mkState 0 tt); reflexivity ])
  end.

(** X6 on [ok(5)]: what [mapOk] returns is a Result again. *)
Lemma methods_return_Results_witness :
  let st := mkState 0 tt in
  exists r r' st',
    ok (VNumber 5) st = (Return r, bump st) /\
    IsResult (U := unit) r /\
    invoke (ext := stringify_gives None) r "mapOk" (ArgFn identity) (bump st)
    = (Return r', st') /\
    isResult r' = true.
Proof.
  cbv zeta. do 3 eexists. split; [reflexivity|].
  sample_is_Result (VNumber 5) H.
  split; [exact H|]. split; [reflexivity|].
  exact (proj2
           (proj1
              (methods_return_Results (ext := stringify_gives None)
                 _ identity identity (bump (mkState 0 tt)) H)
              "mapOk" _ _ (or_introl eq_refl) eq_refl)).
Defined.

(** X9 on [err(true)]: mapping the identity over the error gives an Err of
    [true] again. *)
Lemma mapErr_identity_and_composition_witness :
  let st := mkState 0 tt in
  exists r,
    err (VBool true) st = (Return r, bump st) /\
    IsResult (U := unit) r /\
    same_run observably_equal
      (invoke (ext := stringify_gives None) r "mapErr" (ArgFn identity)
         (bump st))
      (Return r, bump st).
Proof.
  cbv zeta. eexists. split; [reflexivity|].
  sample_is_Result (VBool true) H.
  split; [exact H|].
  exact (proj1 (mapErr_identity_and_composition (ext := stringify_gives None)
                  _ identity identity (bump (mkState 0 tt)) H)).
Defined.

(** X10 on [ok(5)]. *)
Lemma mapOkAndErr_decomposes_witness :
  let st := mkState 0 tt in
  exists r,
    ok (VNumber 5) st = (Return r, bump st) /\
    IsResult (U := unit) r /\
    invoke (ext := stringify_gives None) r "mapOkAndErr"
      (ArgFns identity identity) (bump st)
    = bind (invoke (ext := stringify_gives None) r "mapOk" (ArgFn identity))
        (fun r' => invoke (ext := stringify_gives None) r' "mapErr"
                     (ArgFn identity))
        (bump st).
Proof.
  cbv zeta. eexists. split; [reflexivity|].
  sample_is_Result (VNumber 5) H.
  split; [exact H|].
  exact (proj1 (mapOkAndErr_decomposes (ext := stringify_gives None)
                  _ identity identity (bump (mkState 0 tt)) H)).
Defined.

(** X11 on a promise fulfilled with [err(true)]. *)
Lemma asyncMap_follows_methods_witness :
  let st := mkState 0 tt in
  exists r,
    err (VBool true) st = (Return r, bump st) /\
    IsResult (U := unit) r /\
    map_okAndErr
      (asyncMap (ext := stringify_gives None) (VPromise (Fulfilled r)))
      identity identity (bump st)
    = async (ext := stringify_gives None)
        (invoke (ext := stringify_gives None) r "mapOkAndErr"
           (ArgFns identity identity))
        (bump st).
Proof.
  cbv zeta. eexists. split; [reflexivity|].
  sample_is_Result (VBool true) H.
  split; [exact H|].
  exact (proj1 (asyncMap_follows_methods (ext := stringify_gives None)
                  _ identity identity (bump (mkState 0 tt)) H)).
Defined.

(** X12 on a promise fulfilled with [err(true)]: the promise rejects with
    the error [unwrap] throws. *)
Lemma asyncUnwrap_is_async_unwrap_witness :
  let st := mkState 0 tt in
  exists r,
    err (VBool true) st = (Return r, bump st) /\
    IsResult (U := unit) r /\
    asyncUnwrap (ext := stringify_gives (Some "true")) (VPromise (Fulfilled r))
      (bump st)
    = (Return (VPromise (Rejected (VError 1 "true" (Some (VBool true))))),
       mkState 2 tt).
Proof.
  cbv zeta. eexists. split; [reflexivity|].
  sample_is_Result (VBool true) H.
  split; [exact H|].
  rewrite (asyncUnwrap_is_async_unwrap (ext := stringify_gives (Some "true"))
             _ (bump (mkState 0 tt)) H).
  reflexivity.
Defined.

(** X14 on a function that returns a promise fulfilled with 42. *)
Lemma resultify_function_returning_promise_witness :
  let st := mkState 0 tt in
  let fn : thunk := fun u => (Return (VPromise (Fulfilled (VNumber 42))), u) in
  fn (world st) = (Return (VPromise (Fulfilled (VNumber 42))), tt) /\
  resultify (ext := stringify_gives None) (AFunction fn) None st
  = resultify (ext := stringify_gives None)
      (NotAFunction (VPromise (Fulfilled (VNumber 42)))) None st.
Proof.
  split; [reflexivity|].
  exact (resultify_function_returning_promise (ext := stringify_gives None)
           (fun u => (Return (VPromise (Fulfilled (VNumber 42))), u))
           None (mkState 0 tt) (Fulfilled (VNumber 42)) tt eq_refl).
Defined.

(** X15 with a normalizer that throws ['bad'] on every error. *)
Lemma resultify_normalizer_throws_witness :
  let st := mkState 0 tt in
  let n : callback := fun _ u => (Throw (VString "bad"), u) in
  n (VNumber 1) tt = (Throw (VString "bad"), tt) /\
  resultify (ext := stringify_gives None)
    (AFunction (fun u => (Throw (VNumber 1), u))) (Some n) st
  = (Throw (VString "bad"), st).
Proof.
  split; [reflexivity|].
  exact (proj1
           (resultify_normalizer_throws (ext := stringify_gives None)
              (fun _ u => (Throw (VString "bad"), u))
              (VNumber 1) (VString "bad") tt tt (mkState 0 tt) eq_refl)
           (fun u => (Throw (VNumber 1), u)) eq_refl).
Defined.

(** X20 on [err(true)]: [unwrapOr(0)] returns 0. *)
Lemma unwrapOr_total_witness :
  let st := mkState 0 tt in
  exists r,
    err (VBool true) st = (Return r, bump st) /\
    IsResult (U := unit) r /\
    invoke (ext := stringify_gives None) r "unwrapOrNull" NoArg (bump st)
    = invoke (ext := stringify_gives None) r "unwrapOr" (ArgValue VNull)
        (bump st).
Proof.
  cbv zeta. eexists. split; [reflexivity|].
  sample_is_Result (VBool true) H.
  split; [exact H|].
  exact (proj1 (unwrapOr_total (ext := stringify_gives None)
                  _ (VNumber 0) (bump (mkState 0 tt)) H)).
Defined.

(** X22 on two hand-made objects that agree on the guarded members: one
    also has a [value] and a member of its own, the other has neither. *)
Lemma isResult_reads_guarded_members_only_witness :
  let guarded :=
    [ ("ok", VBool true); ("error", VBool false);
      ("unwrapOrNull", VFunction Fn_okUnwrapOr);
      ("unwrapOr", VFunction Fn_okUnwrapOr);
      ("unwrap", VFunction Fn_okUnwrapOr);
      ("mapOk", VFunction Fn_okMap);
      ("mapErr", VFunction Fn_returnResult);
      ("mapOkAndErr", VFunction Fn_mapOkAndErr);
      ("onOk", VFunction Fn_okOnOk);
      ("onErr", VFunction Fn_returnResult) ] in
  let v := VObject 0 (("value", VNumber 5) :: ("extra", VNull) :: guarded) in
  let w := VObject 1 guarded in
  typeof v = typeof w /\
  is_null v = is_null w /\
  isResult v = isResult w /\
  isResult w = true.
Proof.
  cbv zeta. split; [reflexivity|]. split; [reflexivity|].
  split; [| reflexivity].
  apply isResult_reads_guarded_members_only; try reflexivity.
  intros k Hk. simpl in Hk.
  repeat (destruct Hk as [<- | Hk]); try contradiction; reflexivity.
Defined.

(** A thenable made by hand: [isPromise] accepts it, so [resultify] on a
    function that returns it takes the [then]/[catch] branch, which calls
    the caller's own [then] and is outside the model; a promise resolved
    with it (here by [asyncUnwrap] of an Ok that holds it) ends as the
    thenable decides. *)
Example test_thenable :
  let th := VObject 0 [ ("then", VFunction (Fn_foreign 0)) ] in
  let settled : Externals :=
    {| safeJsonStringify := fun _ => None;
       adopt := fun _ => Rejected (VString "later") |} in
  let st := mkState 1 tt in
  isPromise th = true /\
  fst (resultify (ext := settled) (AFunction (fun u => (Return th, u))) None st)
  = Unmodelled /\
  exists r st',
    ok th st = (Return r, st') /\
    asyncUnwrap (ext := settled) (VPromise (Fulfilled r)) st'
    = (Return (VPromise (Rejected (VString "later"))), st').
Proof.
  split; [reflexivity|]. split; [reflexivity|].
  do 2 eexists. split; reflexivity.
Qed.
